(** * Word MCP server (SSE transport): plan builder, orchestrator and backend

    A shallow embedding of [src/agent/_MCP/wordMCP/server.py].

    - Python [str] values are lists of Unicode code points ([pystr]); source
      literals are written as UTF-8 Rocq strings and decoded by [u].
    - JSON / Python values exchanged with clients are [pyval]; a [dict] is an
      association list in insertion order ([pydict]).
    - The interpreter's Unicode table, [pathlib], [datetime], the file system
      and [python-docx] are not part of the repository: they are the fields of
      the class [PyEnv], and every call into them may raise.
    - Handlers run in a state-and-exception monad [M] over the environment's
      [World]; the two SSE generators are modelled by the list of frames they
      yield, driven by an oracle for [request.is_disconnected()]. *)

From Stdlib Require Import String Ascii.
From Stdlib Require Import List ZArith NArith Lia Bool Arith.
From Stdlib Require Decimal DecimalString DecimalPos DecimalZ.
Import ListNotations.

Set Warnings "-register-all".

Local Open Scope N_scope.

(* ================================================================== *)
(** ** Python strings *)

(** A Python [str]: a sequence of code points. *)
Definition pystr := list N.

(** Decoder for the UTF-8 bytes of a source literal. *)
Fixpoint utf8_decode (bs : list N) : pystr :=
  match bs with
  | [] => []
  | b0 :: r0 =>
      if b0 <? 128 then b0 :: utf8_decode r0
      else
        match r0 with
        | [] => []
        | b1 :: r1 =>
            if b0 <? 224 then ((b0 - 192) * 64 + (b1 - 128)) :: utf8_decode r1
            else
              match r1 with
              | [] => []
              | b2 :: r2 =>
                  if b0 <? 240
                  then ((b0 - 224) * 4096 + (b1 - 128) * 64 + (b2 - 128))
                         :: utf8_decode r2
                  else
                    match r2 with
                    | [] => []
                    | b3 :: r3 =>
                        ((b0 - 240) * 262144 + (b1 - 128) * 4096
                         + (b2 - 128) * 64 + (b3 - 128)) :: utf8_decode r3
                    end
              end
        end
  end.

(** [u "..."] is the Python string written by the literal ["..."]. *)
Definition u (s : string) : pystr :=
  utf8_decode (map N_of_ascii (list_ascii_of_string s)).
Arguments u s%_string.

(** The line feed, ['\n']. *)
Definition LF : pystr := [10].

Definition pystr_eqb (a b : pystr) : bool :=
  if list_eq_dec N.eq_dec a b then true else false.

(** Truthiness of a string: [bool(s)]. *)
Definition nonempty (s : pystr) : bool :=
  match s with [] => false | _ :: _ => true end.

(** [str(n)] for an [int]. *)
Definition str_int (z : Z) : pystr := u (DecimalString.NilZero.string_of_int (Z.to_int z)).

(** [str.isspace] for one character (CPython's [_PyUnicode_IsWhitespace]);
    the same predicate decides [\s] in a [str] pattern of [re]. *)
Definition isspace (c : N) : bool :=
  ((9 <=? c) && (c <=? 13)) || ((28 <=? c) && (c <=? 32))
  || (c =? 133) || (c =? 160) || (c =? 5760)
  || ((8192 <=? c) && (c <=? 8202))
  || (c =? 8232) || (c =? 8233) || (c =? 8239) || (c =? 8287) || (c =? 12288).

Fixpoint lstrip (s : pystr) : pystr :=
  match s with
  | [] => []
  | c :: r => if isspace c then lstrip r else s
  end.

(** [s.strip()] *)
Definition strip (s : pystr) : pystr := rev (lstrip (rev (lstrip s))).

Fixpoint startswith (s p : pystr) : bool :=
  match p, s with
  | [], _ => true
  | _ :: _, [] => false
  | a :: p', b :: s' => (a =? b) && startswith s' p'
  end.

(** [s.endswith(p)] *)
Definition endswith (s p : pystr) : bool := startswith (rev s) (rev p).

(** [sep.join(parts)] *)
Fixpoint join (sep : pystr) (parts : list pystr) : pystr :=
  match parts with
  | [] => []
  | [p] => p
  | p :: rest => p ++ sep ++ join sep rest
  end.

(** [s.split(c)] for a one-character separator: never empty. *)
Fixpoint split_on (c : N) (s : pystr) : list pystr :=
  match s with
  | [] => [[]]
  | x :: r =>
      if x =? c then [] :: split_on c r
      else
        match split_on c r with
        | [] => [[x]]
        | w :: ws => (x :: w) :: ws
        end
  end.

(** [needle in hay] *)
Fixpoint contains (hay needle : pystr) : bool :=
  startswith hay needle
  || match hay with [] => false | _ :: r => contains r needle end.

(** Scanning part of [hay.replace(old, new)] for a non-empty [old]:
    [skip] counts the characters of a match still to be dropped. *)
Fixpoint replace_scan (old new : pystr) (skip : nat) (hay : pystr) : pystr :=
  match hay with
  | [] => []
  | c :: r =>
      match skip with
      | S k => replace_scan old new k r
      | O =>
          if startswith hay old
          then new ++ replace_scan old new (length old - 1) r
          else c :: replace_scan old new 0 r
      end
  end.

(** [hay.replace(old, new)]; an empty [old] matches between all characters. *)
Definition replace (hay old new : pystr) : pystr :=
  match old with
  | [] => new ++ flat_map (fun c => c :: new) hay
  | _ :: _ => replace_scan old new 0 hay
  end.

(* ================================================================== *)
(** ** Python values *)

(** Values that reach the server through JSON bodies, and the results it
    sends back.  A [float] is carried as its IEEE-754 binary64 bit pattern. *)
Inductive pyval : Type :=
| PNone
| PBool (b : bool)
| PInt (z : Z)
| PFloat (bits : Z)
| PStr (s : pystr)
| PList (l : list pyval)
| PDict (d : list (pystr * pyval)).

Definition pydict := list (pystr * pyval).

(** [d.get(k)], for a dict with string keys and values in [V]. *)
Fixpoint dict_get {V : Type} (k : pystr) (d : list (pystr * V)) : option V :=
  match d with
  | [] => None
  | (k', v) :: r => if pystr_eqb k k' then Some v else dict_get k r
  end.

(** [bool(v)] *)
Definition truthy (v : pyval) : bool :=
  match v with
  | PNone => false
  | PBool b => b
  | PInt z => negb (z =? 0)%Z
  | PFloat bits => negb ((bits =? 0)%Z || (bits =? 2 ^ 63)%Z)
  | PStr s => nonempty s
  | PList l => match l with [] => false | _ => true end
  | PDict d => match d with [] => false | _ => true end
  end.

(** [v == "literal"] *)
Definition eq_str (v : pyval) (s : pystr) : bool :=
  match v with PStr t => pystr_eqb t s | _ => false end.

(** [v is not None] *)
Definition is_not_None (v : pyval) : bool :=
  match v with PNone => false | _ => true end.

(* ================================================================== *)
(** ** Exceptions and the handler monad *)

(** An instance of a subclass of [Exception]: its class name and [str(e)]. *)
Record exn : Type := Exception { exc_class : string; exc_str : pystr }.

Inductive outcome (A : Type) : Type :=
| Ret (a : A)
| Raise (e : exn).
Arguments Ret {A} a.
Arguments Raise {A} e.

(** A computation over a world [W]: it returns or raises, and leaves a world. *)
Definition M (W A : Type) : Type := W -> outcome A * W.

Definition ret {W A} (a : A) : M W A := fun w => (Ret a, w).

Definition raise {W A} (e : exn) : M W A := fun w => (Raise e, w).

Definition bind {W A B} (m : M W A) (k : A -> M W B) : M W B :=
  fun w =>
    match m w with
    | (Ret a, w') => k a w'
    | (Raise e, w') => (Raise e, w')
    end.

(** [try: body  except Exception as e: handler(e)] *)
Definition try_except {W A} (body : M W A) (handler : exn -> M W A) : M W A :=
  fun w =>
    match body w with
    | (Ret a, w') => (Ret a, w')
    | (Raise e, w') => handler e w'
    end.

Declare Scope py_scope.
Delimit Scope py_scope with py.
Notation "x <- c ;; k" := (bind c (fun x => k))
  (at level 61, c at next level, right associativity) : py_scope.
Notation "c ;;; k" := (bind c (fun _ => k))
  (at level 61, right associativity) : py_scope.
Local Open Scope py_scope.

(** [for x in xs: body(x)] *)
Fixpoint for_each {W A} (xs : list A) (body : A -> M W unit) : M W unit :=
  match xs with
  | [] => ret tt
  | x :: r => body x ;;; for_each r body
  end.

(** A loop that threads one local variable: [for x in xs: acc = body(acc, x)]. *)
Fixpoint for_fold {W A S} (xs : list A) (acc : S) (body : S -> A -> M W S)
  : M W S :=
  match xs with
  | [] => ret acc
  | x :: r => acc' <- body acc x ;; for_fold r acc' body
  end.

(** [[f(x) for x in xs]] *)
Fixpoint for_collect {W A B} (xs : list A) (f : A -> M W B) : M W (list B) :=
  match xs with
  | [] => ret []
  | x :: r => y <- f x ;; ys <- for_collect r f ;; ret (y :: ys)
  end.

(** [enumerate(xs)] *)
Definition enumerate {A} (xs : list A) : list (nat * A) :=
  combine (seq 0 (length xs)) xs.

Definition TypeError (msg : string) : exn := Exception "TypeError" (u msg).
Definition AttributeError (msg : string) : exn :=
  Exception "AttributeError" (u msg).
Definition IndexError (msg : string) : exn := Exception "IndexError" (u msg).
Definition ValueError (msg : string) : exn := Exception "ValueError" (u msg).

(* ================================================================== *)
(** ** The environment of the server *)

(** What the server imports and does not define: the interpreter's Unicode
    table and formatting of non-string values, [pathlib], [datetime], the
    file system and [python-docx].  Objects of these libraries are opaque
    handles; every operation that can fail is a computation in [M World]. *)
Class PyEnv : Type := {
  World : Type;
  path : Type;
  document : Type;
  paragraph : Type;
  run : Type;
  table : Type;
  row : Type;
  cell : Type;
  stat_result : Type;
  (* interpreter *)
  isalnum : N -> bool;                       (* [str.isalnum] on one character *)
  repr : pyval -> pystr;                     (* [str(v)] of floats and containers *)
  float_lt_int : Z -> Z -> bool;             (* [x < n] for a float [x] *)
  (* pathlib *)
  path_of_str : pystr -> path;               (* [Path(s)] *)
  is_absolute : path -> bool;
  joinpath : path -> pystr -> path;          (* [p / s] *)
  path_str : path -> pystr;                  (* [str(p)] *)
  path_name : path -> pystr;                 (* [p.name] *)
  path_exists : path -> M World bool;
  path_stat : path -> M World stat_result;
  st_size : stat_result -> Z;
  path_unlink : path -> M World unit;
  path_glob : path -> pystr -> M World (list path);
  (* datetime *)
  now_strftime : pystr -> M World pystr;     (* [datetime.now().strftime(f)] *)
  mtime_isoformat : stat_result -> M World pystr;
                           (* [datetime.fromtimestamp(st.st_mtime).isoformat()] *)
  (* python-docx *)
  Document_new : M World document;           (* [Document()] *)
  Document_open : pystr -> M World document; (* [Document(path)] *)
  add_heading : document -> pyval -> Z -> M World paragraph;
  set_alignment_center : paragraph -> M World unit;
  add_paragraph : document -> pystr -> M World paragraph;
  save : document -> pystr -> M World unit;
  paragraphs : document -> M World (list paragraph);
  paragraph_text : paragraph -> M World pystr;
  tables : document -> M World (list table);
  table_rows : table -> M World (list row);
  row_cells : row -> M World (list cell);
  cell_text : cell -> M World pystr;
  set_cell_text : cell -> pystr -> M World unit;
  insert_paragraph_before : paragraph -> pyval -> M World paragraph;
  paragraph_clear : paragraph -> M World unit;
  add_run : paragraph -> pyval -> M World run;
  paragraph_runs : paragraph -> M World (list run);
  run_text : run -> M World pystr;
  set_run_text : run -> pystr -> M World unit;
  doc_add_table : document -> nat -> nat -> M World table;
  set_table_style : table -> pystr -> M World unit
}.

Section Interpreter.
Context {E : PyEnv}.

(** [Path(v)]: only a string is accepted among JSON values. *)
Definition Path (v : pyval) : M World path :=
  match v with
  | PStr s => ret (path_of_str s)
  | _ => raise (TypeError "expected str, bytes or os.PathLike object")
  end.

(** [p / v] *)
Definition truediv (p : path) (v : pyval) : M World path :=
  match v with
  | PStr s => ret (joinpath p s)
  | _ => raise (TypeError "unsupported operand type(s) for /")
  end.

(** [str(v)], as used by f-strings. *)
Definition py_str (v : pyval) : pystr :=
  match v with
  | PStr s => s
  | PNone => u "None"
  | PBool true => u "True"
  | PBool false => u "False"
  | PInt z => str_int z
  | _ => repr v
  end.

(** [v.split('\n')]: only [str] has the method. *)
Definition py_split_lines (v : pyval) : M World (list pystr) :=
  match v with
  | PStr s => ret (split_on 10 s)
  | _ => raise (AttributeError "object has no attribute 'split'")
  end.

(** [v < n] for an [int] [n]. *)
Definition py_lt (v : pyval) (n : Z) : M World bool :=
  match v with
  | PInt z => ret (z <? n)%Z
  | PBool b => ret ((if b then 1 else 0) <? n)%Z
  | PFloat bits => ret (float_lt_int bits n)
  | _ => raise (TypeError "'<' not supported between instances")
  end.

(** [xs[i]] for a list and a known index. *)
Definition index_nat {A} (xs : list A) (i : nat) : M World A :=
  match nth_error xs i with
  | Some x => ret x
  | None => raise (IndexError "list index out of range")
  end.

(** [xs[z]] for an [int] [z]: negative indices count from the end. *)
Definition index_int {A} (xs : list A) (z : Z) : M World A :=
  if (0 <=? z)%Z then index_nat xs (Z.to_nat z)
  else if (- Z.of_nat (length xs) <=? z)%Z
       then index_nat xs (Z.to_nat (Z.of_nat (length xs) + z))
       else raise (IndexError "list index out of range").

(** [xs[v]] *)
Definition py_getitem {A} (xs : list A) (v : pyval) : M World A :=
  match v with
  | PInt z => index_int xs z
  | PBool b => index_int xs (if b then 1 else 0)
  | _ => raise (TypeError "list indices must be integers or slices")
  end.

(** [len(v)] *)
Definition py_len (v : pyval) : M World nat :=
  match v with
  | PStr s => ret (length s)
  | PList l => ret (length l)
  | PDict d => ret (length d)
  | _ => raise (TypeError "object has no len()")
  end.

(** The items produced by [for x in v]. *)
Definition py_iter (v : pyval) : M World (list pyval) :=
  match v with
  | PList l => ret l
  | PStr s => ret (map (fun c => PStr [c]) s)
  | PDict d => ret (map (fun kv => PStr (fst kv)) d)
  | _ => raise (TypeError "object is not iterable")
  end.

(** [max(ns)] *)
Definition py_max (ns : list nat) : M World nat :=
  match ns with
  | [] => raise (ValueError "max() arg is an empty sequence")
  | n :: r => ret (fold_left Nat.max r n)
  end.

(** [v in hay] for a string [hay]. *)
Definition py_contains (v : pyval) (hay : pystr) : M World bool :=
  match v with
  | PStr needle => ret (contains hay needle)
  | _ => raise (TypeError "'in <string>' requires string as left operand")
  end.

(** [hay.replace(old, new)] *)
Definition py_replace (hay : pystr) (old new : pyval) : M World pystr :=
  match old, new with
  | PStr o, PStr n => ret (replace hay o n)
  | _, _ => raise (TypeError "replace() argument must be str")
  end.

End Interpreter.

(* ================================================================== *)
(** ** The tools (lines 43-298 of server.py) *)

Section Tools.
Context {E : PyEnv}.

(** [WORD_DIR = Path("word")] *)
Definition WORD_DIR : path := path_of_str (u "word").

Definition get_file_path (filename : pyval) : M World path :=
  p <- Path filename ;;
  p <- (if negb (is_absolute p) then truediv WORD_DIR filename else ret p) ;;
  if negb (endswith (path_str p) (u ".docx"))
  then Path (PStr (path_str p ++ u ".docx"))
  else ret p.

(** The [except Exception as e] clause shared by all seven tools. *)
Definition report (e : exn) : M World pydict :=
  ret [(u "success", PBool false); (u "error", PStr (exc_str e))].

Definition file_missing (filename : pyval) : pydict :=
  [(u "success", PBool false);
   (u "error", PStr (u "文件不存在: " ++ py_str filename))].

Definition create_document (filename title content : pyval)
  : M World pydict :=
  try_except
    (filename <-
       (if negb (truthy filename)
        then stamp <- now_strftime (u "%Y%m%d_%H%M%S") ;;
             ret (PStr (u "document_" ++ stamp ++ u ".docx"))
        else ret filename) ;;
     file_path <- get_file_path filename ;;
     doc <- Document_new ;;
     (if truthy title
      then heading <- add_heading doc title 1 ;;
           set_alignment_center heading
      else ret tt) ;;;
     (if truthy content
      then lines <- py_split_lines content ;;
           for_each lines (fun line =>
             add_paragraph doc
               (if nonempty (strip line) then strip line else u "") ;;;
             ret tt)
      else ret tt) ;;;
     save doc (path_str file_path) ;;;
     st <- path_stat file_path ;;
     ret [(u "success", PBool true);
          (u "message", PStr (u "文档创建成功"));
          (u "file_path", PStr (path_str file_path));
          (u "file_size", PInt (st_size st))])
    report.

Definition read_document (filename : pyval) : M World pydict :=
  try_except
    (file_path <- get_file_path filename ;;
     found <- path_exists file_path ;;
     if negb found then ret (file_missing filename)
     else
       doc <- Document_open (path_str file_path) ;;
       ps <- paragraphs doc ;;
       texts <- for_collect ps paragraph_text ;;
       ts <- tables doc ;;
       tabs <- for_collect ts (fun t =>
                 rs <- table_rows t ;;
                 for_collect rs (fun r =>
                   cs <- row_cells r ;;
                   for_collect cs cell_text)) ;;
       ret [(u "success", PBool true);
            (u "file_path", PStr (path_str file_path));
            (u "paragraphs", PList (map PStr texts));
            (u "paragraph_count", PInt (Z.of_nat (length texts)));
            (u "tables",
             PList (map (fun t =>
                           PList (map (fun r => PList (map PStr r)) t))
                        tabs));
            (u "table_count", PInt (Z.of_nat (length tabs)));
            (u "full_text", PStr (join LF texts))])
    report.

Definition update_document (filename action content paragraph_index : pyval)
  : M World pydict :=
  try_except
    (file_path <- get_file_path filename ;;
     found <- path_exists file_path ;;
     if negb found then ret (file_missing filename)
     else
       doc <- Document_open (path_str file_path) ;;
       let finish : M World pydict :=
         save doc (path_str file_path) ;;;
         ret [(u "success", PBool true);
              (u "message", PStr (u "文档更新成功"));
              (u "action", action)] in
       if eq_str action (u "append") && truthy content then
         lines <- py_split_lines content ;;
         for_each lines (fun line => add_paragraph doc line ;;; ret tt) ;;;
         finish
       else if eq_str action (u "add_heading") && truthy content then
         add_heading doc content 2 ;;;
         finish
       else if eq_str action (u "insert") && truthy content
               && is_not_None paragraph_index then
         ps <- paragraphs doc ;;
         below <- py_lt paragraph_index (Z.of_nat (length ps)) ;;
         (if below
          then ps' <- paragraphs doc ;;
               para <- py_getitem ps' paragraph_index ;;
               insert_paragraph_before para content ;;; ret tt
          else ret tt) ;;;
         finish
       else if eq_str action (u "replace") && is_not_None paragraph_index then
         ps <- paragraphs doc ;;
         below <- py_lt paragraph_index (Z.of_nat (length ps)) ;;
         (if below
          then ps' <- paragraphs doc ;;
               para <- py_getitem ps' paragraph_index ;;
               paragraph_clear para ;;;
               add_run para (if truthy content then content else PStr (u "")) ;;;
               ret tt
          else ret tt) ;;;
         finish
       else
         ret [(u "success", PBool false);
              (u "error", PStr (u "无效的操作或缺少参数"))])
    report.

Definition delete_document (filename : pyval) : M World pydict :=
  try_except
    (file_path <- get_file_path filename ;;
     found <- path_exists file_path ;;
     if negb found then ret (file_missing filename)
     else
       path_unlink file_path ;;;
       ret [(u "success", PBool true);
            (u "message", PStr (u "文档删除成功"))])
    report.

Definition list_documents : M World pydict :=
  try_except
    (files <- path_glob WORD_DIR (u "*.docx") ;;
     docs <- for_collect files (fun file =>
               st <- path_stat file ;;
               modified <- mtime_isoformat st ;;
               ret (PDict [(u "name", PStr (path_name file));
                           (u "path", PStr (path_str file));
                           (u "size", PInt (st_size st));
                           (u "modified", PStr modified)])) ;;
     ret [(u "success", PBool true);
          (u "count", PInt (Z.of_nat (length docs)));
          (u "documents", PList docs)])
    report.

Definition add_table (filename table_data title : pyval) : M World pydict :=
  try_except
    (file_path <- get_file_path filename ;;
     found <- path_exists file_path ;;
     if negb found then ret (file_missing filename)
     else
       doc <- Document_open (path_str file_path) ;;
       (if truthy title then add_heading doc title 2 ;;; ret tt
        else ret tt) ;;;
       (if truthy table_data
        then
          rows <- py_len table_data ;;
          items <- py_iter table_data ;;
          widths <- for_collect items py_len ;;
          cols <- py_max widths ;;
          tbl <- doc_add_table doc rows cols ;;
          set_table_style tbl (u "Light Grid Accent 1") ;;;
          for_each (enumerate items) (fun i_row =>
            cells_data <- py_iter (snd i_row) ;;
            for_each (enumerate cells_data) (fun j_cell =>
              if (fst j_cell <? cols)%nat
              then rs <- table_rows tbl ;;
                   r <- index_nat rs (fst i_row) ;;
                   cs <- row_cells r ;;
                   c <- index_nat cs (fst j_cell) ;;
                   set_cell_text c (py_str (snd j_cell))
              else ret tt))
        else ret tt) ;;;
       save doc (path_str file_path) ;;;
       ret [(u "success", PBool true);
            (u "message", PStr (u "表格添加成功"))])
    report.

Definition search_replace (filename search_text replace_text : pyval)
  : M World pydict :=
  try_except
    (file_path <- get_file_path filename ;;
     found <- path_exists file_path ;;
     if negb found then ret (file_missing filename)
     else
       doc <- Document_open (path_str file_path) ;;
       ps <- paragraphs doc ;;
       count <- for_fold ps 0%Z (fun count para =>
                  rs <- paragraph_runs para ;;
                  for_fold rs count (fun count r =>
                    text <- run_text r ;;
                    hit <- py_contains search_text text ;;
                    if hit
                    then text' <- run_text r ;;
                         new <- py_replace text' search_text replace_text ;;
                         set_run_text r new ;;;
                         ret (count + 1)%Z
                    else ret count)) ;;
       save doc (path_str file_path) ;;;
       ret [(u "success", PBool true);
            (u "message", PStr (u "替换了 " ++ str_int count ++ u " 处"));
            (u "count", PInt count)])
    report.

(** *** Callables and keyword calls *)

(** A function of [n] positional-or-keyword parameters returning a dict. *)
Fixpoint fn_type (n : nat) : Type :=
  match n with
  | O => M World pydict
  | S k => pyval -> fn_type k
  end.

(** A [def]: parameter names with their defaults, and the body. *)
Record pyfunc : Type := Def {
  parameters : list (pystr * option pyval);
  code : fn_type (length parameters)
}.

Fixpoint apply_kwargs (ps : list (pystr * option pyval))
  : fn_type (length ps) -> pydict -> M World pydict :=
  match ps with
  | [] => fun body _ => body
  | (name, default) :: ps' => fun f kwargs =>
      match dict_get name kwargs, default with
      | Some v, _ => apply_kwargs ps' (f v) kwargs
      | None, Some v => apply_kwargs ps' (f v) kwargs
      | None, None =>
          raise (TypeError "missing a required positional argument")
      end
  end.

(** A call with keyword arguments only, [f( **kwargs )]: binding fails
    with [TypeError] before the body runs. *)
Definition call (f : pyfunc) (kwargs : pydict) : M World pydict :=
  if forallb (fun kv => existsb (pystr_eqb (fst kv)) (map fst (parameters f)))
             kwargs
  then apply_kwargs (parameters f) (code f) kwargs
  else raise (TypeError "got an unexpected keyword argument").

(** [TOOL_HANDLERS] *)
Definition TOOL_HANDLERS : list (pystr * pyfunc) :=
  [(u "create_document",
    Def [(u "filename", Some PNone); (u "title", Some PNone);
         (u "content", Some PNone)] create_document);
   (u "read_document", Def [(u "filename", None)] read_document);
   (u "update_document",
    Def [(u "filename", None); (u "action", None);
         (u "content", Some PNone); (u "paragraph_index", Some PNone)]
        update_document);
   (u "delete_document", Def [(u "filename", None)] delete_document);
   (u "list_documents", Def [] list_documents);
   (u "add_table",
    Def [(u "filename", None); (u "table_data", None);
         (u "title", Some PNone)] add_table);
   (u "search_replace",
    Def [(u "filename", None); (u "search_text", None);
         (u "replace_text", None)] search_replace)].

End Tools.

(* ================================================================== *)
(** ** Requests, sanitizer and plan builder (lines 303-414) *)

Record ToolCallRequest : Type := {
  tc_tool : pystr;
  tc_params : pydict
}.

Record AgentRequest : Type := {
  req_query : pystr;
  req_title : option pystr;
  req_filename : option pystr
}.

(** [re.sub(r"\s+", "_", s)]: every maximal run of whitespace becomes one
    underscore; [in_run] tells that the previous character was whitespace. *)
Fixpoint sub_whitespace_runs (in_run : bool) (s : pystr) : pystr :=
  match s with
  | [] => []
  | c :: r =>
      if isspace c
      then (if in_run then sub_whitespace_runs true r
            else 95 :: sub_whitespace_runs true r)
      else c :: sub_whitespace_runs false r
  end.

(** One step of a plan, the dict [{tool, label, params}]; [label] is read
    with [step.get("label")], so it may be absent. *)
Record step : Type := {
  tool : pystr;
  label : option pystr;
  params : pydict
}.

(** An event is the dict handed to [json.dumps] inside one [data:] frame. *)
Definition event := pydict.

Definition event_type (e : event) : option pyval := dict_get (u "type") e.

Section Server.
Context {E : PyEnv}.

(** [\w] in a [str] pattern. *)
Definition word_char (c : N) : bool := isalnum c || (c =? 95).

(** A character outside the class [[^\w\u4e00-\u9fa5_-]]. *)
Definition kept_char (c : N) : bool :=
  word_char c || ((0x4e00 <=? c) && (c <=? 0x9fa5)) || (c =? 95) || (c =? 45).

Definition _sanitize_filename (name : pystr) : pystr :=
  let s := sub_whitespace_runs false (strip name) in
  let s := filter kept_char s in
  if nonempty s then firstn 40 s else [].

Definition intro (title : pystr) : pystr :=
  u "《" ++ title ++ u "》" ++ LF
  ++ LF
  ++ u "本文档用于快速了解 " ++ title
  ++ u " 的定位、核心概念与实践建议，并给出一个最小示例。" ++ LF.

Definition sections (title : pystr) : list (pystr * pystr) :=
  [(u "一、React 是什么", join LF [
      u "React 是一个用于构建用户界面（UI）的 JavaScript 库，核心思想是用组件化的方式组织界面。";
      u "它强调声明式编程：你描述 UI 在某个状态下应该长什么样，框架负责在状态变化时高效更新界面。";
      u "React 本身更关注“视图层”，通常会配合路由、状态管理、构建工具等组成完整工程方案。"]);
   (u "二、核心概念速览", join LF [
      u "1) 组件（Component）：将 UI 拆分为可复用单元。";
      u "2) JSX：一种 JavaScript 语法扩展，用于更直观地描述 UI 结构。";
      u "3) Props / State：props 用于父传子数据；state 用于组件内部状态。";
      u "4) Hooks：函数组件中复用状态逻辑（如 useState/useEffect/useMemo）。";
      u "5) 渲染与更新：React 会在状态变化后计算新的 UI，并将差异更新到真实 DOM。"]);
   (u "三、Hooks 使用建议", join LF [
      u "useState：管理局部状态；状态更新尽量保持不可变数据结构。";
      u "useEffect：处理副作用（数据请求、订阅、DOM 操作）；注意清理函数避免泄漏。";
      u "useMemo / useCallback：用于性能优化，避免不必要的重新计算与函数重建（不要过度使用）。";
      u "自定义 Hook：把可复用逻辑封装成 useXxx，提升可维护性。"]);
   (u "四、生态与工程化", join LF [
      u "路由：React Router（Web 应用常用）。";
      u "状态管理：Redux Toolkit / Zustand / Jotai 等（按复杂度选择）。";
      u "数据请求与缓存：TanStack Query（React Query）。";
      u "构建工具：Vite / Webpack；框架化方案可选 Next.js（SSR/SSG）。";
      u "类型系统：TypeScript 与 React 搭配能显著提升大型项目稳定性。"]);
   (u "五、一个最小示例（函数组件 + Hooks）", join LF [
      u "下面示例展示一个计数器：";
      u "";
      u "```tsx";
      u "import { useState } from 'react';";
      u "";
      u "export function Counter() {";
      u "  const [count, setCount] = useState(0);";
      u "  return (";
      u "    <div>";
      u "      <p>count: {count}</p>";
      u "      <button onClick={() => setCount((c) => c + 1)}>+1</button>";
      u "    </div>";
      u "  );";
      u "}";
      u "```"]);
   (u "六、最佳实践清单", join LF [
      u "组件职责单一：展示组件与容器组件适度分离。";
      u "数据流清晰：优先自上而下传递，避免过早引入全局状态。";
      u "副作用可控：useEffect 依赖数组准确；异步请求注意取消/忽略过期响应。";
      u "性能优化有依据：先用性能分析工具定位，再用 memo/useMemo/useCallback 优化。";
      u "可测试性：复杂逻辑提取为纯函数/自定义 Hook，便于单测。"]);
   (u "七、总结", join LF [
      title ++ u " 适合构建组件化、可维护的大型前端应用。";
      u "建议从函数组件 + Hooks 入手，配合 TypeScript 与现代构建工具（如 Vite）形成稳定工程实践。"])].

Definition comparison_table : list (list pystr) :=
  [[u "维度"; u "React"; u "Vue"; u "Angular"];
   [u "定位"; u "UI 库"; u "渐进式框架"; u "全家桶框架"];
   [u "学习曲线"; u "中等（JS/TS + Hooks）"; u "较平滑"; u "较陡（概念多）"];
   [u "生态"; u "非常丰富"; u "丰富"; u "偏企业级"]].

(** The two [plan.append] calls of one iteration of [for heading, body]. *)
Definition section_steps (filename : pystr) (section : pystr * pystr)
  : list step :=
  let (heading, body) := section in
  [{| tool := u "update_document";
      label := Some (u "添加章节：" ++ heading);
      params := [(u "filename", PStr filename);
                 (u "action", PStr (u "add_heading"));
                 (u "content", PStr heading)] |};
   {| tool := u "update_document";
      label := Some (u "写入内容：" ++ heading);
      params := [(u "filename", PStr filename);
                 (u "action", PStr (u "append"));
                 (u "content", PStr body)] |}].

Definition _react_doc_plan (title filename : pystr) : list step :=
  let plan :=
    [{| tool := u "create_document";
        label := Some (u "创建文档");
        params := [(u "filename", PStr filename);
                   (u "title", PStr title);
                   (u "content", PStr (intro title))] |}] in
  let plan :=
    fold_left (fun plan section => plan ++ section_steps filename section)
              (sections title) plan in
  plan ++
  [{| tool := u "add_table";
      label := Some (u "插入对比表格");
      params := [(u "filename", PStr filename);
                 (u "title", PStr (u "React / Vue / Angular 对比（简表）"));
                 (u "table_data",
                  PList (map (fun r => PList (map PStr r))
                             comparison_table))] |}].

End Server.

(* ================================================================== *)
(** ** Endpoints (lines 433-584) *)

(** How the body of the [for] loop over the plan was left. *)
Inductive loop_exit : Type :=
| Exhausted                 (* the plan ran out of steps *)
| Broke                     (* [break] *)
| Returned                  (* [return] *)
| Raised (e : exn).         (* an exception left the generator *)

(** How a generator ended: it finished, or an exception escaped from it. *)
Inductive stream_end : Type :=
| Finished
| Failed (e : exn).

(** How the heartbeat loop of [/sse] was left. *)
Inductive generator_status : Type :=
| Stopped                   (* [break]: the generator is exhausted *)
| Suspended.                (* still inside [while True] *)

Section Endpoints.
Context {E : PyEnv}.

(** [TOOLS]: the descriptions served by [/tools]. *)
Definition TOOLS : pydict :=
  let str_t := (u "type", PStr (u "string")) in
  let required := (u "required", PBool true) in
  [(u "create_document", PDict [
      (u "description", PStr (u "创建新的 Word 文档"));
      (u "parameters", PDict [
         (u "filename", PDict [str_t; (u "description", PStr (u "文件名（可选）"))]);
         (u "title", PDict [str_t; (u "description", PStr (u "文档标题（可选）"))]);
         (u "content", PDict [str_t; (u "description", PStr (u "初始内容（可选）"))])])]);
   (u "read_document", PDict [
      (u "description", PStr (u "读取 Word 文档内容"));
      (u "parameters", PDict [
         (u "filename", PDict [str_t; (u "description", PStr (u "文件名")); required])])]);
   (u "update_document", PDict [
      (u "description", PStr (u "更新 Word 文档"));
      (u "parameters", PDict [
         (u "filename", PDict [str_t; required]);
         (u "action", PDict [str_t;
            (u "enum", PList [PStr (u "append"); PStr (u "insert");
                              PStr (u "replace"); PStr (u "add_heading")]);
            required]);
         (u "content", PDict [str_t]);
         (u "paragraph_index", PDict [(u "type", PStr (u "integer"))])])]);
   (u "delete_document", PDict [
      (u "description", PStr (u "删除 Word 文档"));
      (u "parameters", PDict [(u "filename", PDict [str_t; required])])]);
   (u "list_documents", PDict [
      (u "description", PStr (u "列出所有 Word 文档"));
      (u "parameters", PDict [])]);
   (u "add_table", PDict [
      (u "description", PStr (u "向文档添加表格"));
      (u "parameters", PDict [
         (u "filename", PDict [str_t; required]);
         (u "table_data", PDict [(u "type", PStr (u "array"));
            (u "description", PStr (u "表格数据（二维数组）")); required]);
         (u "title", PDict [str_t])])]);
   (u "search_replace", PDict [
      (u "description", PStr (u "搜索并替换文本"));
      (u "parameters", PDict [
         (u "filename", PDict [str_t; required]);
         (u "search_text", PDict [str_t; required]);
         (u "replace_text", PDict [str_t; required])])])].

(** *** [POST /call] *)

Definition unknown_tool (tool_name : pystr) : pystr :=
  u "未知工具: " ++ tool_name.

(** [call_tool], over any registry; the log line has no effect on the
    result. *)
Definition call_tool_in (handlers : list (pystr * pyfunc))
           (request : ToolCallRequest) : M World pydict :=
  let tool_name := tc_tool request in
  let params := tc_params request in
  match dict_get tool_name handlers with
  | None =>
      ret [(u "success", PBool false);
           (u "error", PStr (unknown_tool tool_name))]
  | Some handler =>
      result <- call handler params ;;
      ret result
  end.

Definition call_tool : ToolCallRequest -> M World pydict :=
  call_tool_in TOOL_HANDLERS.

(** *** [GET /sse] *)

Definition connected_event : event :=
  [(u "type", PStr (u "connected")); (u "message", PStr (u "SSE 连接成功"))].

Definition tools_event : event :=
  [(u "type", PStr (u "tools"));
   (u "tools", PList (map (fun kv => PStr (fst kv)) TOOLS))].

Definition heartbeat_event (time : pystr) : event :=
  [(u "type", PStr (u "heartbeat")); (u "time", PStr time)].

(** The [while True] loop of [event_generator], resumed at most [fuel]
    times.  [is_disconnected n] answers the check of iteration [n]
    (counted from 0) and [now n] is [datetime.now().isoformat()] there. *)
Fixpoint heartbeat_loop (is_disconnected : nat -> bool) (now : nat -> pystr)
         (fuel n : nat) : list event * generator_status :=
  match fuel with
  | O => ([], Suspended)
  | S fuel' =>
      if is_disconnected n then ([], Stopped)
      else
        let (rest, status) :=
          heartbeat_loop is_disconnected now fuel' (S n) in
        (heartbeat_event (now n) :: rest, status)
  end.

(** The frames of [event_generator] after at most [fuel] turns of its
    loop. *)
Definition event_generator (is_disconnected : nat -> bool)
           (now : nat -> pystr) (fuel : nat)
  : list event * generator_status :=
  let (beats, status) := heartbeat_loop is_disconnected now fuel 0 in
  (connected_event :: tools_event :: beats, status).

(** *** [POST /sse/agent] *)

(** Lines 537-545: the title and the file name of the document.
    [now_s] is [int(datetime.now().timestamp())] and [now_ms] is
    [int(datetime.now().timestamp() * 1000)], read from the clock. *)
Definition resolve_title (request : AgentRequest) : pystr :=
  let title :=
    strip (match req_title request with
           | Some t => if nonempty t then t else u ""
           | None => u ""
           end) in
  if negb (nonempty title)
  then (let q := strip (req_query request) in
        if nonempty q then q else u "新文档")
  else title.

Definition resolve_base_name (request : AgentRequest) (title : pystr)
           (now_s : Z) : pystr :=
  let base_name :=
    _sanitize_filename
      (match req_filename request with
       | Some f => if nonempty f then f else title
       | None => title
       end) in
  if negb (nonempty base_name) || (length base_name <? 3)%nat
  then u "doc_" ++ str_int now_s
  else base_name.

Definition resolve_filename (request : AgentRequest) (title : pystr)
           (now_s now_ms : Z) : pystr :=
  resolve_base_name request title now_s ++ u "_" ++ str_int now_ms.

Definition agent_start_event : event :=
  [(u "type", PStr (u "start")); (u "tool", PStr (u "agent"));
   (u "message", PStr (u "开始多步生成文档"))].

(** [step.get("label") or tool_name] *)
Definition step_label (s : step) : pystr :=
  match label s with
  | Some l => if nonempty l then l else tool s
  | None => tool s
  end.

Definition progress_event (idx total : nat) (lbl : pystr) : event :=
  [(u "type", PStr (u "progress"));
   (u "message",
    PStr (u "[" ++ str_int (Z.of_nat idx) ++ u "/"
          ++ str_int (Z.of_nat total) ++ u "] " ++ lbl))].

Definition start_event (tool_name : pystr) (idx : nat) (lbl : pystr)
  : event :=
  [(u "type", PStr (u "start")); (u "tool", PStr tool_name);
   (u "step", PInt (Z.of_nat idx)); (u "label", PStr lbl)].

Definition error_event (tool_name : pystr) (idx : nat) : event :=
  [(u "type", PStr (u "error"));
   (u "error", PStr (unknown_tool tool_name));
   (u "step", PInt (Z.of_nat idx))].

Definition result_event (result : pydict) (tool_name : pystr) (idx : nat)
           (lbl : pystr) : event :=
  [(u "type", PStr (u "result")); (u "data", PDict result);
   (u "tool", PStr tool_name); (u "step", PInt (Z.of_nat idx));
   (u "label", PStr lbl)].

Definition done_event (filename title : pystr) : event :=
  [(u "type", PStr (u "done"));
   (u "data", PDict [(u "filename", PStr filename);
                     (u "title", PStr title)])].

(** Lines 554-572: [for idx, step in enumerate(plan, start=1)], from the
    step of index [idx] on.  [total] is [len(plan)]; [is_disconnected idx]
    answers [await http_request.is_disconnected()] at the top of the
    iteration of index [idx]. *)
Fixpoint plan_loop (handlers : list (pystr * pyfunc))
         (is_disconnected : nat -> bool) (total idx : nat)
         (steps : list step) (w : World)
  : list event * loop_exit * World :=
  match steps with
  | [] => ([], Exhausted, w)
  | s :: rest =>
      if is_disconnected idx then ([], Broke, w)
      else
        let tool_name := tool s in
        let lbl := step_label s in
        let progress := progress_event idx total lbl in
        let start := start_event tool_name idx lbl in
        match dict_get tool_name handlers with
        | None =>
            ([progress; start; error_event tool_name idx], Returned, w)
        | Some handler =>
            match call handler (params s) w with
            | (Raise e, w') => ([progress; start], Raised e, w')
            | (Ret result, w') =>
                let '(events, how, w'') :=
                  plan_loop handlers is_disconnected total (S idx) rest w' in
                (progress :: start
                   :: result_event result tool_name idx lbl :: events,
                 how, w'')
            end
        end
  end.

(** Lines 554-574: the loop over a plan and what follows it. *)
Definition run_plan (handlers : list (pystr * pyfunc))
           (plan : list step) (title filename : pystr)
           (is_disconnected : nat -> bool) (w : World)
  : list event * stream_end * World :=
  let '(events, how, w') :=
    plan_loop handlers is_disconnected (length plan) 1 plan w in
  match how with
  | Exhausted | Broke => (events ++ [done_event filename title], Finished, w')
  | Returned => (events, Finished, w')
  | Raised e => (events, Failed e, w')
  end.

(** [stream_response] of [sse_agent]: every frame it yields. *)
Definition stream_response (request : AgentRequest) (now_s now_ms : Z)
           (is_disconnected : nat -> bool) (w : World)
  : list event * stream_end * World :=
  let title := resolve_title request in
  let filename := resolve_filename request title now_s now_ms in
  let plan := _react_doc_plan title filename in
  let '(events, how, w') :=
    run_plan TOOL_HANDLERS plan title filename is_disconnected w in
  (agent_start_event :: events, how, w').

(** *** [POST /sse/call] *)

(** [stream_response] of [sse_call_tool] (lines 499-518): every frame it
    yields. *)
Definition sse_call_tool_stream (request : ToolCallRequest) (w : World)
  : list event * stream_end * World :=
  let tool_name := tc_tool request in
  let params := tc_params request in
  let start : event :=
    [(u "type", PStr (u "start")); (u "tool", PStr tool_name)] in
  match dict_get tool_name TOOL_HANDLERS with
  | None =>
      ([start;
        [(u "type", PStr (u "error"));
         (u "error", PStr (unknown_tool tool_name))]],
       Finished, w)
  | Some handler =>
      match call handler params w with
      | (Raise e, w') => ([start], Failed e, w')
      | (Ret result, w') =>
          ([start;
            [(u "type", PStr (u "result")); (u "data", PDict result)];
            [(u "type", PStr (u "done"))]],
           Finished, w')
      end
  end.

End Endpoints.

(* ================================================================== *)
(** ** A small environment to run the model

    Documents are lists of paragraphs and tables of strings, files live in an
    association list, and a flag makes the store read-only.  It stands for no
    claim about [python-docx]; it lets the definitions above be evaluated. *)

Module MemEnv.

Record doc_data : Type := {
  pars : list pystr;
  tabs : list (list (list pystr))
}.

Record world : Type := {
  files : list (pystr * doc_data);
  heap : list doc_data;
  writable : bool;
  clock : pystr
}.

Definition empty_world : world :=
  {| files := []; heap := []; writable := true; clock := u "20240101_000000" |}.

Definition read_only_world : world :=
  {| files := []; heap := []; writable := false; clock := u "20240101_000000" |}.

(** A store holding one document, [word/notes.docx], of one paragraph. *)
Definition one_note_world : world :=
  {| files := [(u "word/notes.docx", {| pars := [u "hello"]; tabs := [] |})];
     heap := []; writable := true; clock := u "20240101_000000" |}.

Definition OSError (msg : string) : exn := Exception "OSError" (u msg).

Fixpoint set_nth {A} (n : nat) (x : A) (l : list A) : list A :=
  match l, n with
  | [], _ => []
  | _ :: r, O => x :: r
  | y :: r, S k => y :: set_nth k x r
  end.

Fixpoint insert_nth {A} (n : nat) (x : A) (l : list A) : list A :=
  match n, l with
  | O, _ => x :: l
  | S k, y :: r => y :: insert_nth k x r
  | S _, [] => [x]
  end.

Definition get_doc (d : nat) : M world doc_data :=
  fun w => match nth_error (heap w) d with
           | Some data => (Ret data, w)
           | None => (Raise (ValueError "stale document"), w)
           end.

Definition put_doc (d : nat) (data : doc_data) : M world unit :=
  fun w => (Ret tt, {| files := files w; heap := set_nth d data (heap w);
                       writable := writable w; clock := clock w |}).

Definition new_doc (data : doc_data) : M world nat :=
  fun w => (Ret (length (heap w)),
            {| files := files w; heap := heap w ++ [data];
               writable := writable w; clock := clock w |}).

Definition text_of (v : pyval) : M world pystr :=
  match v with
  | PStr s => ret s
  | _ => raise (TypeError "text must be a string")
  end.

Definition pick {A} (xs : list A) (i : nat) : M world A :=
  match nth_error xs i with
  | Some x => ret x
  | None => raise (IndexError "no such element")
  end.

Definition find_file (p : pystr) : M world doc_data :=
  fun w => match dict_get p (files w) with
           | Some data => (Ret data, w)
           | None => (Raise (OSError "No such file or directory"), w)
           end.

Definition remove_file (p : pystr) (fs : list (pystr * doc_data)) :=
  filter (fun kv => negb (pystr_eqb (fst kv) p)) fs.

Definition write_files (f : list (pystr * doc_data) -> list (pystr * doc_data))
  : M world unit :=
  fun w => if writable w
           then (Ret tt, {| files := f (files w); heap := heap w;
                            writable := true; clock := clock w |})
           else (Raise (OSError "Read-only file system"), w).

Definition size_of (data : doc_data) : Z :=
  Z.of_nat (length (concat (pars data))
            + length (concat (concat (concat (tabs data))))).

Definition sample_isalnum (c : N) : bool :=
  ((48 <=? c) && (c <=? 57)) || ((65 <=? c) && (c <=? 90))
  || ((97 <=? c) && (c <=? 122)) || ((0x4e00 <=? c) && (c <=? 0x9fff)).

Local Open Scope py_scope.

Definition env : PyEnv := {|
  World := world;
  path := pystr;
  document := nat;
  paragraph := nat * nat;
  run := nat * nat;
  table := nat * nat;
  row := nat * nat * nat;
  cell := nat * nat * nat * nat;
  stat_result := Z;
  isalnum := sample_isalnum;
  repr := fun _ => u "<object>";
  float_lt_int := fun _ _ => false;
  path_of_str := fun s => s;
  is_absolute := fun p => startswith p (u "/");
  joinpath := fun p s => if startswith s (u "/") then s else p ++ u "/" ++ s;
  path_str := fun p => p;
  path_name := fun p => last (split_on 47 p) [];
  path_exists := fun p w =>
    (Ret (match dict_get p (files w) with Some _ => true | None => false end),
     w);
  path_stat := fun p => data <- find_file p ;; ret (size_of data);
  st_size := fun st => st;
  path_unlink := fun p => find_file p ;;; write_files (remove_file p);
  path_glob := fun dir _ w =>
    (Ret (filter (fun p => startswith p (dir ++ u "/")) (map fst (files w))),
     w);
  now_strftime := fun _ w => (Ret (clock w), w);
  mtime_isoformat := fun _ w => (Ret (clock w), w);
  Document_new := new_doc {| pars := []; tabs := [] |};
  Document_open := fun p => data <- find_file p ;; new_doc data;
  add_heading := fun d v _ =>
    text <- text_of v ;;
    data <- get_doc d ;;
    put_doc d {| pars := pars data ++ [text]; tabs := tabs data |} ;;;
    ret (d, length (pars data));
  set_alignment_center := fun _ => ret tt;
  add_paragraph := fun d text =>
    data <- get_doc d ;;
    put_doc d {| pars := pars data ++ [text]; tabs := tabs data |} ;;;
    ret (d, length (pars data));
  save := fun d p =>
    data <- get_doc d ;;
    write_files (fun fs => (p, data) :: remove_file p fs);
  paragraphs := fun d =>
    data <- get_doc d ;;
    ret (map (fun i => (d, i)) (seq 0 (length (pars data))));
  paragraph_text := fun p =>
    data <- get_doc (fst p) ;;
    pick (pars data) (snd p);
  tables := fun d =>
    data <- get_doc d ;;
    ret (map (fun i => (d, i)) (seq 0 (length (tabs data))));
  table_rows := fun t =>
    data <- get_doc (fst t) ;;
    match nth_error (tabs data) (snd t) with
    | Some rows => ret (map (fun i => (t, i)) (seq 0 (length rows)))
    | None => raise (ValueError "stale table")
    end;
  row_cells := fun r =>
    data <- get_doc (fst (fst r)) ;;
    match nth_error (nth (snd (fst r)) (tabs data) []) (snd r) with
    | Some cells => ret (map (fun j => (r, j)) (seq 0 (length cells)))
    | None => raise (ValueError "stale row")
    end;
  cell_text := fun c =>
    data <- get_doc (fst (fst (fst c))) ;;
    match nth_error (nth (snd (fst c))
                         (nth (snd (fst (fst c))) (tabs data) []) [])
                    (snd c) with
    | Some text => ret text
    | None => raise (ValueError "stale cell")
    end;
  set_cell_text := fun c text =>
    let d := fst (fst (fst c)) in
    let t := snd (fst (fst c)) in
    let r := snd (fst c) in
    data <- get_doc d ;;
    let rows := nth t (tabs data) [] in
    let cells := nth r rows [] in
    put_doc d {| pars := pars data;
                 tabs := set_nth t (set_nth r (set_nth (snd c) text cells) rows)
                                 (tabs data) |};
  insert_paragraph_before := fun p v =>
    text <- text_of v ;;
    data <- get_doc (fst p) ;;
    put_doc (fst p) {| pars := insert_nth (snd p) text (pars data);
                       tabs := tabs data |} ;;;
    ret p;
  paragraph_clear := fun p =>
    data <- get_doc (fst p) ;;
    put_doc (fst p) {| pars := set_nth (snd p) [] (pars data);
                       tabs := tabs data |};
  add_run := fun p v =>
    text <- text_of v ;;
    data <- get_doc (fst p) ;;
    put_doc (fst p)
            {| pars := set_nth (snd p) (nth (snd p) (pars data) [] ++ text)
                               (pars data);
               tabs := tabs data |} ;;;
    ret p;
  paragraph_runs := fun p => ret [p];
  run_text := fun r =>
    data <- get_doc (fst r) ;;
    ret (nth (snd r) (pars data) []);
  set_run_text := fun r text =>
    data <- get_doc (fst r) ;;
    put_doc (fst r) {| pars := set_nth (snd r) text (pars data);
                       tabs := tabs data |};
  doc_add_table := fun d rows cols =>
    data <- get_doc d ;;
    put_doc d {| pars := pars data;
                 tabs := tabs data ++ [repeat (repeat [] cols) rows] |} ;;;
    ret (d, length (tabs data));
  set_table_style := fun _ _ => ret tt
|}.

End MemEnv.

Local Close Scope N_scope.

(* ================================================================== *)
(** ** Specification vocabulary *)

(** An [OperationResult]: a dict with a boolean [success], and a string
    [error] whenever [success] is false. *)
Definition OperationResult (d : pydict) : Prop :=
  exists b : bool,
    dict_get (u "success") d = Some (PBool b)
    /\ (b = false -> exists msg, dict_get (u "error") d = Some (PStr msg)).

(** Every normal return value of [m] satisfies [Q]. *)
Definition post {W A} (m : M W A) (Q : A -> Prop) : Prop :=
  forall w a w', m w = (Ret a, w') -> Q a.

(** [m] returns in every world, with a value satisfying [Q]. *)
Definition returns {W A} (m : M W A) (Q : A -> Prop) : Prop :=
  forall w, exists a w', m w = (Ret a, w') /\ Q a.

Section Vocabulary.
Context {E : PyEnv}.

(** A function is total when, whatever values its parameters take and
    whatever the world, its body returns an [OperationResult]. *)
Fixpoint total_on (n : nat) : fn_type n -> Prop :=
  match n with
  | O => fun body => returns body OperationResult
  | S k => fun f => forall v : pyval, total_on k (f v)
  end.

Definition total (f : pyfunc) : Prop :=
  total_on (length (parameters f)) (code f).

(** The keyword arguments fit the signature: no unexpected name, and a
    value for every parameter without default. *)
Definition binds (f : pyfunc) (kwargs : pydict) : bool :=
  forallb (fun kv => existsb (pystr_eqb (fst kv)) (map fst (parameters f)))
          kwargs
  && forallb (fun p => match snd p, dict_get (fst p) kwargs with
                       | None, None => false
                       | _, _ => true
                       end)
             (parameters f).

(** The step names a registered operation whose call, with the step's
    parameters, returns a result in every world. *)
Definition step_returns (handlers : list (pystr * pyfunc)) (s : step)
  : Prop :=
  exists handler,
    dict_get (tool s) handlers = Some handler
    /\ forall w, exists result w', call handler (params s) w = (Ret result, w').

(** The frames of completed steps: one [(progress, start, result)] triple
    per step, numbered from [idx], with the results the backend gave. *)
Fixpoint completed_events (total idx : nat) (steps : list step)
         (results : list pydict) : list event :=
  match steps, results with
  | s :: steps', r :: results' =>
      progress_event idx total (step_label s)
        :: start_event (tool s) idx (step_label s)
        :: result_event r (tool s) idx (step_label s)
        :: completed_events total (S idx) steps' results'
  | _, _ => []
  end.

(** The frame has the given [type]. *)
Definition has_type (t : string) (e : event) : bool :=
  match event_type e with
  | Some (PStr s) => pystr_eqb s (u t)
  | _ => false
  end.

Definition count_type (t : string) (events : list event) : nat :=
  length (filter (has_type t) events).

(** The first and the last step of a built plan. *)
Definition create_step (title filename : pystr) : step :=
  {| tool := u "create_document";
     label := Some (u "创建文档");
     params := [(u "filename", PStr filename);
                (u "title", PStr title);
                (u "content", PStr (intro title))] |}.

Definition table_step (filename : pystr) : step :=
  {| tool := u "add_table";
     label := Some (u "插入对比表格");
     params := [(u "filename", PStr filename);
                (u "title", PStr (u "React / Vue / Angular 对比（简表）"));
                (u "table_data",
                 PList (map (fun r => PList (map PStr r))
                            comparison_table))] |}.

(** The heartbeats of iterations [n], [n+1], ..., [count] of them. *)
Definition beats_from (now : nat -> pystr) (n count : nat) : list event :=
  map (fun i => heartbeat_event (now i)) (seq n count).

(** The path [get_file_path] builds from a string. *)
Definition resolved_path (s : pystr) : path :=
  let p := path_of_str s in
  let p := if is_absolute p then p else joinpath WORD_DIR s in
  if endswith (path_str p) (u ".docx") then p
  else path_of_str (path_str p ++ u ".docx").

(** One of the four branches of [update_document] is taken. *)
Definition update_applies (action content paragraph_index : pyval) : bool :=
  (eq_str action (u "append") && truthy content)
  || (eq_str action (u "add_heading") && truthy content)
  || (eq_str action (u "insert") && truthy content
      && is_not_None paragraph_index)
  || (eq_str action (u "replace") && is_not_None paragraph_index).


(** The calls a plan makes when nothing interrupts it: each step's handler
    on the world the previous one left, up to the first step that is not
    registered or raises. *)
Fixpoint call_in_order (handlers : list (pystr * pyfunc)) (steps : list step)
         (w : World) : list pydict * World :=
  match steps with
  | [] => ([], w)
  | s :: rest =>
      match dict_get (tool s) handlers with
      | None => ([], w)
      | Some handler =>
          match call handler (params s) w with
          | (Ret result, w') =>
              let (results, w'') := call_in_order handlers rest w' in
              (result :: results, w'')
          | (Raise _, w') => ([], w')
          end
      end
  end.

(** The parameter table that [TOOLS] publishes for a tool. *)
Definition schema_parameters (name : pystr) : pydict :=
  match dict_get name TOOLS with
  | Some (PDict description) =>
      match dict_get (u "parameters") description with
      | Some (PDict ps) => ps
      | _ => []
      end
  | _ => []
  end.

Definition marked_required (spec : pyval) : bool :=
  match spec with
  | PDict d =>
      match dict_get (u "required") d with
      | Some (PBool true) => true
      | _ => false
      end
  | _ => false
  end.

(** The keyword arguments use only published names and give every
    parameter published as required. *)
Definition follows_schema (name : pystr) (kwargs : pydict) : bool :=
  forallb (fun kv => existsb (pystr_eqb (fst kv))
                             (map fst (schema_parameters name)))
          kwargs
  && forallb (fun p => negb (marked_required (snd p))
                       || match dict_get (fst p) kwargs with
                          | Some _ => true
                          | None => false
                          end)
             (schema_parameters name).


End Vocabulary.

(* ================================================================== *)
(** ** Sample inputs *)

Section Samples.

Definition sample_request : AgentRequest :=
  {| req_query := u "React 入门"; req_title := None; req_filename := None |}.

Definition titled_request : AgentRequest :=
  {| req_query := u "写一份文档";
     req_title := Some (u "  React 入门 ");
     req_filename := Some (u "ab") |}.

Definition unknown_call : ToolCallRequest :=
  {| tc_tool := u "translate_document"; tc_params := [] |}.


Definition unknown_step : step :=
  {| tool := u "translate_document"; label := None; params := [] |}.

(** The peer is gone from the third cancellation check on. *)
Definition gone_at_3 (idx : nat) : bool := 3 <=? idx.

Definition never_gone (idx : nat) : bool := false.

End Samples.

(* ================================================================== *)
(** ** The handler monad *)

Section Hoare.
Context {W : Type}.

Lemma post_ret {A} (a : A) (Q : A -> Prop) : Q a -> post (W := W) (ret a) Q.
Proof. intros HQ w a' w' H. inversion H; subst. exact HQ. Qed.

Lemma post_raise {A} (e : exn) (Q : A -> Prop) : post (W := W) (raise e) Q.
Proof. intros w a w' H. discriminate H. Qed.

Lemma post_bind {A B} (m : M W A) (k : A -> M W B) (Q : B -> Prop) :
  (forall a, post (k a) Q) -> post (bind m k) Q.
Proof.
  intros Hk w b w' H. unfold bind in H.
  destruct (m w) as [[a | e] w1].
  - exact (Hk a w1 b w' H).
  - discriminate H.
Qed.

Lemma try_except_returns {A} (body : M W A) (handler : exn -> M W A)
      (Q : A -> Prop) :
  post body Q ->
  (forall e, returns (handler e) Q) ->
  returns (try_except body handler) Q.
Proof.
  intros Hbody Hhandler w. unfold try_except.
  destruct (body w) as [[a | e] w1] eqn:Hrun.
  - exists a, w1. split; [reflexivity | exact (Hbody w a w1 Hrun)].
  - exact (Hhandler e w1).
Qed.

End Hoare.

Ltac post_body :=
  repeat first
    [ apply post_ret
    | apply post_raise
    | apply post_bind; intros
    | match goal with
      | |- post (if ?b then _ else _) _ => destruct b
      | |- post (let _ := _ in _) _ => cbv zeta
      end ].

Ltac operation_result :=
  first
    [ exists true; split; [reflexivity | discriminate]
    | exists false; split; [reflexivity | intros _; eexists; reflexivity] ].

(* ================================================================== *)
(** ** The tools never raise *)

Section ToolsTotal.
Context {E : PyEnv}.

Lemma report_returns (e : exn) : returns (report e) OperationResult.
Proof.
  intros w. eexists _, w. split; [reflexivity | operation_result].
Qed.

Lemma file_missing_result (filename : pyval) :
  OperationResult (file_missing filename).
Proof. unfold file_missing. operation_result. Qed.

Ltac tool_total :=
  apply try_except_returns; [ | exact report_returns ];
  post_body; solve [ exact (file_missing_result _) | operation_result ].

Lemma create_document_total (filename title content : pyval) :
  returns (create_document filename title content) OperationResult.
Proof. unfold create_document. tool_total. Qed.

Lemma read_document_total (filename : pyval) :
  returns (read_document filename) OperationResult.
Proof. unfold read_document. tool_total. Qed.

Lemma update_document_total (filename action content paragraph_index : pyval) :
  returns (update_document filename action content paragraph_index)
          OperationResult.
Proof. unfold update_document. tool_total. Qed.

Lemma delete_document_total (filename : pyval) :
  returns (delete_document filename) OperationResult.
Proof. unfold delete_document. tool_total. Qed.

Lemma list_documents_total : returns list_documents OperationResult.
Proof. unfold list_documents. tool_total. Qed.

Lemma add_table_total (filename table_data title : pyval) :
  returns (add_table filename table_data title) OperationResult.
Proof. unfold add_table. tool_total. Qed.

Lemma search_replace_total (filename search_text replace_text : pyval) :
  returns (search_replace filename search_text replace_text) OperationResult.
Proof. unfold search_replace. tool_total. Qed.

End ToolsTotal.


(* ================================================================== *)
(** ** The plan loop *)

Section PlanLoop.
Context {E : PyEnv}.
Variable handlers : list (pystr * pyfunc).
Variable is_disconnected : nat -> bool.
Variable total_steps : nat.

Lemma has_type_progress t idx lbl :
  has_type t (progress_event idx total_steps lbl) = pystr_eqb (u "progress") (u t).
Proof. reflexivity. Qed.

Lemma has_type_start t name idx lbl :
  has_type t (start_event name idx lbl) = pystr_eqb (u "start") (u t).
Proof. reflexivity. Qed.

Lemma has_type_result t r name idx lbl :
  has_type t (result_event r name idx lbl) = pystr_eqb (u "result") (u t).
Proof. reflexivity. Qed.

(** Steps that return, with no disconnection seen, each leave their triple
    and hand over to the rest of the plan. *)
Lemma plan_loop_completed (pre rest : list step) :
  forall idx w,
    Forall (step_returns handlers) pre ->
    (forall i, idx <= i < idx + length pre -> is_disconnected i = false) ->
    exists results w1,
      length results = length pre
      /\ plan_loop handlers is_disconnected total_steps idx (pre ++ rest) w
         = let '(events, how, w2) :=
             plan_loop handlers is_disconnected total_steps
                       (idx + length pre) rest w1 in
           (completed_events total_steps idx pre results ++ events, how, w2).
Proof.
  induction pre as [| s pre IH]; intros idx w Hok Hconn.
  - exists [], w. split; [reflexivity | ].
    cbn [app length completed_events]. rewrite Nat.add_0_r.
    destruct (plan_loop _ _ _ _ rest w) as [[events how] w2]. reflexivity.
  - inversion Hok as [| ? ? Hs Hpre]; subst.
    destruct Hs as (handler & Hget & Hcall).
    destruct (Hcall w) as (result & w' & Hrun).
    destruct (IH (S idx) w' Hpre) as (results & w1 & Hlen & Heq).
    { intros i Hi. apply Hconn. cbn [length]. lia. }
    exists (result :: results), w1. split; [cbn [length]; lia | ].
    cbn [app plan_loop].
    rewrite (Hconn idx) by (cbn [length]; lia).
    rewrite Hget, Hrun, Heq.
    cbn [length]. replace (idx + S (length pre)) with (S idx + length pre) by lia.
    destruct (plan_loop _ _ _ _ rest w1) as [[events how] w2].
    reflexivity.
Qed.

Lemma count_result_completed (steps : list step) :
  forall idx results,
    length results = length steps ->
    count_type "result" (completed_events total_steps idx steps results)
    = length steps.
Proof.
  unfold count_type.
  induction steps as [| s steps IH]; intros idx [| r results] Hlen;
    try discriminate Hlen; [reflexivity | ].
  cbn [completed_events filter].
  rewrite has_type_progress, has_type_start, has_type_result.
  change (pystr_eqb (u "progress") (u "result")) with false.
  change (pystr_eqb (u "start") (u "result")) with false.
  change (pystr_eqb (u "result") (u "result")) with true.
  cbn [length]. f_equal. apply IH. cbn [length] in Hlen. lia.
Qed.

Lemma count_other_completed (t : string) (steps : list step) :
  pystr_eqb (u "progress") (u t) = false ->
  pystr_eqb (u "start") (u t) = false ->
  pystr_eqb (u "result") (u t) = false ->
  forall idx results,
    count_type t (completed_events total_steps idx steps results) = 0.
Proof.
  intros Hp Hs Hr. unfold count_type.
  induction steps as [| s steps IH]; intros idx [| r results];
    try reflexivity.
  cbn [completed_events filter].
  rewrite has_type_progress, has_type_start, has_type_result, Hp, Hs, Hr.
  apply IH.
Qed.

Lemma count_type_app (t : string) (a b : list event) :
  count_type t (a ++ b) = count_type t a + count_type t b.
Proof. unfold count_type. rewrite filter_app, length_app. reflexivity. Qed.

End PlanLoop.

(* ================================================================== *)
(** ** Calls that bind return *)

Section Binding.
Context {E : PyEnv}.

Lemma apply_kwargs_returns (kwargs : pydict) (ps : list (pystr * option pyval)) :
  forall body : fn_type (length ps),
    total_on (length ps) body ->
    forallb (fun p => match snd p, dict_get (fst p) kwargs with
                      | None, None => false
                      | _, _ => true
                      end) ps = true ->
    returns (apply_kwargs ps body kwargs) OperationResult.
Proof.
  induction ps as [| [name default] ps IH]; intros body Htotal Hreq.
  - exact Htotal.
  - cbn [forallb fst snd] in Hreq. apply andb_true_iff in Hreq.
    destruct Hreq as [Hhere Hrest].
    cbn [apply_kwargs]. cbn [length total_on] in Htotal.
    destruct (dict_get name kwargs) as [v |].
    + apply IH; [apply Htotal | exact Hrest].
    + destruct default as [v |]; [ | discriminate Hhere].
      apply IH; [apply Htotal | exact Hrest].
Qed.

Lemma call_returns (f : pyfunc) (kwargs : pydict) :
  total f -> binds f kwargs = true -> returns (call f kwargs) OperationResult.
Proof.
  intros Htotal Hbinds. unfold binds in Hbinds.
  apply andb_true_iff in Hbinds. destruct Hbinds as [Hknown Hreq].
  unfold call. rewrite Hknown.
  apply apply_kwargs_returns; assumption.
Qed.

Lemma registered_total (name : pystr) (f : pyfunc) :
  dict_get name TOOL_HANDLERS = Some f -> total f.
Proof.
  unfold TOOL_HANDLERS. cbn [dict_get].
  repeat match goal with
         | |- (if ?c then _ else _) = _ -> _ => destruct c
         end;
    intros H; inversion H; subst;
    cbv [total total_on length parameters code]; intros.
  - apply create_document_total.
  - apply read_document_total.
  - apply update_document_total.
  - apply delete_document_total.
  - apply list_documents_total.
  - apply add_table_total.
  - apply search_replace_total.
Qed.

(** A registered operation called with fitting keyword arguments returns. *)
Lemma registered_step_returns (s : step) (f : pyfunc) :
  dict_get (tool s) TOOL_HANDLERS = Some f ->
  binds f (params s) = true ->
  step_returns TOOL_HANDLERS s.
Proof.
  intros Hget Hbinds. exists f. split; [exact Hget | ].
  intros w.
  destruct (call_returns f (params s) (registered_total _ _ Hget) Hbinds w)
    as (r & w' & Hrun & _).
  exists r, w'. exact Hrun.
Qed.

End Binding.

(** C7. Each of the seven registered handlers is total: for all values of its
    parameters and every world, its body returns a dict with a boolean
    [success], with a string [error] when [success] is false; no exception
    leaves it.  So a call through the registry whose keyword arguments fit
    the handler's signature always returns such a dict. *)
Theorem registered_handlers_total `{E : PyEnv} :
  map fst TOOL_HANDLERS
  = [u "create_document"; u "read_document"; u "update_document";
     u "delete_document"; u "list_documents"; u "add_table";
     u "search_replace"]
  /\ Forall (fun entry => total (snd entry)) TOOL_HANDLERS
  /\ (forall name handler kwargs,
         dict_get name TOOL_HANDLERS = Some handler ->
         binds handler kwargs = true ->
         returns (call handler kwargs) OperationResult).
Proof.
  split; [reflexivity | ]. split.
  - unfold TOOL_HANDLERS.
    repeat apply Forall_cons; try apply Forall_nil;
      cbv [total total_on length parameters code snd]; intros.
    + apply create_document_total.
    + apply read_document_total.
    + apply update_document_total.
    + apply delete_document_total.
    + apply list_documents_total.
    + apply add_table_total.
    + apply search_replace_total.
  - intros name handler kwargs Hget Hbinds.
    apply call_returns; [exact (registered_total name handler Hget) | exact Hbinds].
Qed.

(** Witness for C7: reading a document that does not exist. *)
Lemma registered_handlers_total_witness :
  binds (E := MemEnv.env) (Def [(u "filename", None)] read_document)
        [(u "filename", PStr (u "missing"))] = true
  /\ exists result w',
       call (E := MemEnv.env) (Def [(u "filename", None)] read_document)
            [(u "filename", PStr (u "missing"))] MemEnv.empty_world
       = (Ret result, w')
       /\ OperationResult result.
Proof.
  split; [reflexivity | ].
  destruct (registered_handlers_total (E := MemEnv.env)) as (_ & _ & Hcall).
  exact (Hcall (u "read_document") _ [(u "filename", PStr (u "missing"))]
               eq_refl eq_refl MemEnv.empty_world).
Defined.

(* ================================================================== *)
(** ** The plan builder *)

Section PlanBuilder.
Context {E : PyEnv}.

Lemma fold_left_append {A B} (f : A -> list B) (l : list A) :
  forall init,
    fold_left (fun acc x => acc ++ f x) l init = init ++ flat_map f l.
Proof.
  induction l as [| x l IH]; intros init; cbn [fold_left flat_map].
  - symmetry. apply app_nil_r.
  - rewrite IH, app_assoc. reflexivity.
Qed.

(** The three phases of the plan. *)
Lemma plan_phases (title filename : pystr) :
  _react_doc_plan title filename
  = create_step title filename
      :: flat_map (section_steps filename) (sections title)
      ++ [table_step filename].
Proof.
  unfold _react_doc_plan. rewrite fold_left_append. reflexivity.
Qed.

Lemma length_sections (title : pystr) : length (sections title) = 7.
Proof. reflexivity. Qed.

Lemma length_section_steps (filename : pystr) (l : list (pystr * pystr)) :
  length (flat_map (section_steps filename) l) = 2 * length l.
Proof.
  induction l as [| [heading body] l IH]; [reflexivity | ].
  cbn [flat_map section_steps app length]. rewrite IH. lia.
Qed.

Lemma length_plan (title filename : pystr) :
  length (_react_doc_plan title filename) = 16.
Proof.
  rewrite plan_phases. cbn [length].
  rewrite length_app, length_section_steps, length_sections. reflexivity.
Qed.

Lemma nth_section_steps (filename : pystr) (l : list (pystr * pystr)) :
  forall i heading body,
    nth_error l i = Some (heading, body) ->
    firstn 2 (skipn (2 * i) (flat_map (section_steps filename) l))
    = section_steps filename (heading, body).
Proof.
  induction l as [| sec l IH]; intros [| i] heading body Hnth;
    try discriminate Hnth.
  - cbn [nth_error] in Hnth. inversion Hnth; subst. reflexivity.
  - cbn [nth_error] in Hnth.
    replace (2 * S i) with (S (S (2 * i))) by lia.
    destruct sec as [h b]. cbn [flat_map section_steps app skipn].
    apply IH. exact Hnth.
Qed.

(** Every step of a built plan names a registered operation and carries
    keyword arguments that fit it. *)
Lemma plan_steps_return (title filename : pystr) :
  Forall (step_returns TOOL_HANDLERS) (_react_doc_plan title filename).
Proof.
  rewrite plan_phases.
  apply Forall_cons; [ | apply Forall_app; split ].
  - eapply registered_step_returns; reflexivity.
  - apply Forall_flat_map, Forall_forall. intros [heading body] _.
    cbn [section_steps].
    repeat apply Forall_cons; try apply Forall_nil;
      eapply registered_step_returns; reflexivity.
  - apply Forall_cons; [ | apply Forall_nil ].
    eapply registered_step_returns; reflexivity.
Qed.

End PlanBuilder.

(* ================================================================== *)
(** ** The orchestrator *)

Section Orchestrator.
Context {E : PyEnv}.

Lemma plan_loop_registered handlers is_disconnected total (plan : list step) :
  forall idx w,
    Forall (step_returns handlers) plan ->
    let '(events, how, _) :=
      plan_loop handlers is_disconnected total idx plan w in
    count_type "error" events = 0 /\ (how = Exhausted \/ how = Broke).
Proof.
  induction plan as [| s plan IH]; intros idx w Hok.
  - cbn [plan_loop]. split; [reflexivity | left; reflexivity].
  - inversion Hok as [| ? ? Hs Hplan]; subst.
    destruct Hs as (handler & Hget & Hcall).
    destruct (Hcall w) as (result & w' & Hrun).
    cbn [plan_loop]. destruct (is_disconnected idx).
    + split; [reflexivity | right; reflexivity].
    + rewrite Hget, Hrun.
      specialize (IH (S idx) w' Hplan).
      destruct (plan_loop handlers is_disconnected total (S idx) plan w')
        as [[events how] w2].
      destruct IH as [Hcount Hhow]. split; [ | exact Hhow].
      unfold count_type in *. cbn [filter].
      rewrite has_type_progress, has_type_start, has_type_result.
      exact Hcount.
Qed.

End Orchestrator.

(** C4. Over any registry and any plan whose steps all name a registered
    operation that returns a result, and with the peer connected throughout:
    every step gets its (progress, start, result) triple whatever the results
    say (nothing looks at [success]), the number of [result] frames is the
    number of steps, and the stream ends with the one [done] frame. *)
Theorem failed_results_do_not_halt `{E : PyEnv}
        (handlers : list (pystr * pyfunc)) (plan : list step)
        (title filename : pystr) (is_disconnected : nat -> bool) (w : World) :
  Forall (step_returns handlers) plan ->
  (forall idx, is_disconnected idx = false) ->
  exists results w',
    length results = length plan
    /\ run_plan handlers plan title filename is_disconnected w
       = (completed_events (length plan) 1 plan results
            ++ [done_event filename title],
          Finished, w')
    /\ count_type "result"
         (completed_events (length plan) 1 plan results
            ++ [done_event filename title]) = length plan
    /\ count_type "done"
         (completed_events (length plan) 1 plan results
            ++ [done_event filename title]) = 1.
Proof.
  intros Hok Hconn.
  destruct (plan_loop_completed handlers is_disconnected (length plan)
                                plan [] 1 w Hok)
    as (results & w1 & Hlen & Heq).
  { intros i _. apply Hconn. }
  rewrite app_nil_r in Heq. cbn [plan_loop] in Heq.
  rewrite app_nil_r in Heq.
  exists results, w1. split; [exact Hlen | ].
  split; [unfold run_plan; rewrite Heq; reflexivity | ].
  rewrite !count_type_app, count_result_completed by exact Hlen.
  rewrite count_other_completed by reflexivity.
  split; [cbn; lia | reflexivity].
Qed.

(** Witness for C4: the built plan against a read-only store, where every
    tool answers [success = False]. *)
Lemma failed_results_do_not_halt_witness :
  let plan := _react_doc_plan (u "React") (u "React_1") in
  Forall (step_returns (E := MemEnv.env) TOOL_HANDLERS) plan
  /\ (forall idx, never_gone idx = false)
  /\ exists results w',
       length results = length plan
       /\ run_plan (E := MemEnv.env) TOOL_HANDLERS plan (u "React") (u "React_1")
                   never_gone MemEnv.read_only_world
          = (completed_events (length plan) 1 plan results
               ++ [done_event (u "React_1") (u "React")],
             Finished, w')
       /\ count_type "result"
            (completed_events (length plan) 1 plan results
               ++ [done_event (u "React_1") (u "React")]) = length plan
       /\ count_type "done"
            (completed_events (length plan) 1 plan results
               ++ [done_event (u "React_1") (u "React")]) = 1.
Proof.
  intros plan.
  split; [apply plan_steps_return | ].
  split; [reflexivity | ].
  apply (failed_results_do_not_halt (E := MemEnv.env) TOOL_HANDLERS plan
           (u "React") (u "React_1") never_gone MemEnv.read_only_world).
  - apply plan_steps_return.
  - reflexivity.
Defined.

(** C2. When the steps before step [k] completed and the peer is connected,
    a step [k] naming an operation absent from the registry leaves exactly
    [progress], [start] and an [error] carrying the name and [k]; the
    generator returns there: no [result] for step [k], nothing for later
    steps, and no [done]. *)
Theorem unknown_operation_aborts `{E : PyEnv}
        (handlers : list (pystr * pyfunc)) (pre post : list step) (s : step)
        (title filename : pystr) (is_disconnected : nat -> bool) (w : World) :
  Forall (step_returns handlers) pre ->
  dict_get (tool s) handlers = None ->
  (forall idx, 1 <= idx <= S (length pre) -> is_disconnected idx = false) ->
  let plan := pre ++ s :: post in
  let k := S (length pre) in
  let failure :=
    [progress_event k (length plan) (step_label s);
     start_event (tool s) k (step_label s);
     error_event (tool s) k] in
  exists results w',
    length results = length pre
    /\ run_plan handlers plan title filename is_disconnected w
       = (completed_events (length plan) 1 pre results ++ failure, Finished, w')
    /\ dict_get (u "error") (error_event (tool s) k)
       = Some (PStr (u "未知工具: " ++ tool s))
    /\ dict_get (u "step") (error_event (tool s) k) = Some (PInt (Z.of_nat k))
    /\ count_type "result" (completed_events (length plan) 1 pre results ++ failure)
       = length pre
    /\ count_type "done" (completed_events (length plan) 1 pre results ++ failure)
       = 0.
Proof.
  intros Hok Hunknown Hconn plan k failure. subst plan k failure.
  destruct (plan_loop_completed handlers is_disconnected
                                (length (pre ++ s :: post))
                                pre (s :: post) 1 w Hok)
    as (results & w1 & Hlen & Heq).
  { intros i Hi. apply Hconn. lia. }
  cbn [plan_loop] in Heq.
  rewrite (Hconn (1 + length pre)) in Heq by lia.
  rewrite Hunknown in Heq.
  exists results, w1. split; [exact Hlen | ].
  split; [unfold run_plan; rewrite Heq; reflexivity | ].
  split; [reflexivity | ]. split; [reflexivity | ].
  rewrite !count_type_app, count_result_completed by exact Hlen.
  rewrite count_other_completed by reflexivity.
  split; [cbn; lia | reflexivity].
Qed.

(** Witness for C2: an unregistered name as second step of a three-step plan. *)
Lemma unknown_operation_aborts_witness :
  let pre := [create_step (u "React") (u "React_1")] in
  let post := [table_step (u "React_1")] in
  Forall (step_returns (E := MemEnv.env) TOOL_HANDLERS) pre
  /\ dict_get (tool unknown_step) (TOOL_HANDLERS (E := MemEnv.env)) = None
  /\ (forall idx, 1 <= idx <= 2 -> never_gone idx = false)
  /\ exists results w',
       length results = 1
       /\ run_plan (E := MemEnv.env) TOOL_HANDLERS (pre ++ unknown_step :: post)
                   (u "React") (u "React_1") never_gone MemEnv.empty_world
          = (completed_events 3 1 pre results
               ++ [progress_event 2 3 (u "translate_document");
                   start_event (u "translate_document") 2 (u "translate_document");
                   error_event (u "translate_document") 2],
             Finished, w').
Proof.
  intros pre post.
  assert (Hpre : Forall (step_returns (E := MemEnv.env) TOOL_HANDLERS) pre).
  { apply Forall_cons; [ | apply Forall_nil ].
    eapply registered_step_returns; reflexivity. }
  split; [exact Hpre | ].
  split; [reflexivity | ].
  split; [reflexivity | ].
  destruct (unknown_operation_aborts (E := MemEnv.env) TOOL_HANDLERS pre post
              unknown_step (u "React") (u "React_1") never_gone
              MemEnv.empty_world Hpre eq_refl (fun _ _ => eq_refl))
    as (results & w' & Hlen & Hrun & _).
  exists results, w'. split; [exact Hlen | exact Hrun].
Defined.

(** C1. In the stream of [/sse/agent], a disconnection seen at the check
    before step [k] ends the loop by [break]: the [k-1] completed steps have
    their triples and step [k] and later steps leave nothing, but control
    falls through to the statement after the loop, which yields [done]. *)
Theorem disconnect_still_yields_done `{E : PyEnv}
        (request : AgentRequest) (now_s now_ms : Z)
        (is_disconnected : nat -> bool) (w : World) (k : nat) :
  1 <= k <= 16 ->
  (forall idx, 1 <= idx < k -> is_disconnected idx = false) ->
  is_disconnected k = true ->
  let title := resolve_title request in
  let filename := resolve_filename request title now_s now_ms in
  let completed := firstn (k - 1) (_react_doc_plan title filename) in
  exists results w',
    length results = k - 1
    /\ stream_response request now_s now_ms is_disconnected w
       = (agent_start_event
            :: completed_events 16 1 completed results
            ++ [done_event filename title],
          Finished, w')
    /\ count_type "done"
         (agent_start_event
            :: completed_events 16 1 completed results
            ++ [done_event filename title]) = 1.
Proof.
  intros Hk Hconn Hgone title filename completed.
  pose proof (length_plan title filename) as Hlen16.
  pose proof (plan_steps_return title filename) as Hok.
  rewrite <- (firstn_skipn (k - 1) (_react_doc_plan title filename)) in Hok.
  apply Forall_app in Hok. destruct Hok as [Hpre _]. fold completed in Hpre.
  assert (Hlenpre : length completed = k - 1).
  { unfold completed. rewrite length_firstn, Hlen16. lia. }
  destruct (skipn (k - 1) (_react_doc_plan title filename)) as [| s post] eqn:Hrest.
  { apply (f_equal (@length step)) in Hrest.
    rewrite length_skipn, Hlen16 in Hrest. cbn [length] in Hrest. lia. }
  destruct (plan_loop_completed TOOL_HANDLERS is_disconnected 16
                                completed (s :: post) 1 w Hpre)
    as (results & w1 & Hlen & Heq).
  { intros i Hi. apply Hconn. lia. }
  cbn [plan_loop] in Heq.
  replace (1 + length completed) with k in Heq by lia.
  rewrite Hgone in Heq.
  unfold completed in Heq at 1. rewrite <- Hrest, firstn_skipn in Heq.
  exists results, w1. split; [lia | ].
  split.
  - unfold stream_response, run_plan. fold title. fold filename.
    rewrite Hlen16, Heq, app_nil_r. reflexivity.
  - unfold count_type. cbn [filter].
    change (has_type "done" agent_start_event) with false. cbv iota.
    fold (count_type "done"
            (completed_events 16 1 completed results
               ++ [done_event filename title])).
    rewrite count_type_app, count_other_completed by reflexivity.
    reflexivity.
Qed.

(** Witness for C1: the peer is gone at the check before step 3. *)
Lemma disconnect_still_yields_done_witness :
  1 <= 3 <= 16
  /\ (forall idx, 1 <= idx < 3 -> gone_at_3 idx = false)
  /\ gone_at_3 3 = true
  /\ exists results w',
       length results = 2
       /\ stream_response (E := MemEnv.env) sample_request
                          1730000000 1730000000123 gone_at_3 MemEnv.empty_world
          = (agent_start_event
               :: completed_events 16 1
                    (firstn 2 (_react_doc_plan
                                 (u "React 入门")
                                 (u "React_入门_1730000000123")))
                    results
               ++ [done_event (u "React_入门_1730000000123") (u "React 入门")],
             Finished, w').
Proof.
  assert (Hconn : forall idx, 1 <= idx < 3 -> gone_at_3 idx = false).
  { intros idx Hidx. unfold gone_at_3. apply Nat.leb_gt. lia. }
  assert (Hk : 1 <= 3 <= 16) by lia.
  split; [exact Hk | ]. split; [exact Hconn | ]. split; [reflexivity | ].
  destruct (disconnect_still_yields_done (E := MemEnv.env) sample_request
              1730000000 1730000000123 gone_at_3 MemEnv.empty_world 3
              Hk Hconn eq_refl)
    as (results & w' & Hlen & Hrun & _).
  exists results, w'. split; [exact Hlen | ].
  rewrite Hrun.
  change (resolve_title sample_request) with (u "React 入门").
  replace (resolve_filename (E := MemEnv.env) sample_request (u "React 入门")
                            1730000000 1730000000123)
    with (u "React_入门_1730000000123") by (vm_compute; reflexivity).
  reflexivity.
Defined.

(** C10. Every step of a built plan names [create_document],
    [update_document] or [add_table], each a key of [TOOL_HANDLERS]; hence
    the stream of [/sse/agent] never yields an [error] frame and always runs
    to its end, whatever the request, the clock, the peer and the world. *)
Theorem built_plan_names_registered_operations `{E : PyEnv} :
  (forall title filename,
      Forall (fun s =>
                In (tool s) [u "create_document"; u "update_document";
                             u "add_table"]
                /\ In (tool s) (map fst TOOL_HANDLERS)
                /\ dict_get (tool s) TOOL_HANDLERS <> None)
             (_react_doc_plan title filename))
  /\ (forall request now_s now_ms is_disconnected w,
         let '(events, how, _) :=
           stream_response request now_s now_ms is_disconnected w in
         count_type "error" events = 0 /\ how = Finished).
Proof.
  split.
  - intros title filename. rewrite plan_phases.
    apply Forall_cons; [ | apply Forall_app; split ].
    + cbn [tool create_step]. split; [left; reflexivity | ].
      split; [left; reflexivity | discriminate].
    + apply Forall_flat_map, Forall_forall. intros [heading body] _.
      cbn [section_steps].
      repeat apply Forall_cons; try apply Forall_nil; cbn [tool];
        (split; [right; left; reflexivity | ]);
        (split; [do 2 right; left; reflexivity | discriminate]).
    + apply Forall_cons; [ | apply Forall_nil ].
      cbn [tool table_step]. split; [do 2 right; left; reflexivity | ].
      split; [do 5 right; left; reflexivity | discriminate].
  - intros request now_s now_ms is_disconnected w.
    unfold stream_response, run_plan.
    set (title := resolve_title request).
    set (filename := resolve_filename request title now_s now_ms).
    pose proof (plan_loop_registered TOOL_HANDLERS is_disconnected
                  (length (_react_doc_plan title filename))
                  (_react_doc_plan title filename) 1 w
                  (plan_steps_return title filename)) as Hloop.
    destruct (plan_loop TOOL_HANDLERS is_disconnected
                        (length (_react_doc_plan title filename)) 1
                        (_react_doc_plan title filename) w)
      as [[events how] w'].
    destruct Hloop as [Hcount [Hhow | Hhow]]; subst how;
      (split; [ | reflexivity ]);
      unfold count_type in *; cbn [filter];
      change (has_type "error" agent_start_event) with false; cbv iota;
      rewrite filter_app, length_app, Hcount; reflexivity.
Qed.

(** C3. For every title and document identifier the plan has
    [1 + 2N + 1] steps with [N = 7] sections, 16 in all; it starts with
    [create_document] and ends with [add_table]; in between, section [i]
    contributes one [update_document] step with action [add_heading] and
    its heading, followed by one with action [append] and its body. *)
Theorem plan_has_three_phases (title filename : pystr) :
  let plan := _react_doc_plan title filename in
  let N := length (sections title) in
  N = 7
  /\ length plan = 1 + 2 * N + 1
  /\ length plan = 16
  /\ option_map tool (hd_error plan) = Some (u "create_document")
  /\ option_map tool (nth_error plan (length plan - 1)) = Some (u "add_table")
  /\ firstn (2 * N) (skipn 1 plan)
     = flat_map (section_steps filename) (sections title)
  /\ forall i heading body,
       nth_error (sections title) i = Some (heading, body) ->
       exists heading_step body_step,
         firstn 2 (skipn (1 + 2 * i) plan) = [heading_step; body_step]
         /\ tool heading_step = u "update_document"
         /\ dict_get (u "action") (params heading_step)
            = Some (PStr (u "add_heading"))
         /\ dict_get (u "content") (params heading_step) = Some (PStr heading)
         /\ tool body_step = u "update_document"
         /\ dict_get (u "action") (params body_step) = Some (PStr (u "append"))
         /\ dict_get (u "content") (params body_step) = Some (PStr body).
Proof.
  intros plan N.
  pose proof (length_plan title filename) as Hlen. fold plan in Hlen.
  assert (HN : N = 7) by reflexivity.
  split; [exact HN | ]. split; [rewrite HN; exact Hlen | ].
  split; [exact Hlen | ]. split; [reflexivity | ].
  split.
  { rewrite Hlen. unfold plan. rewrite plan_phases.
    rewrite app_comm_cons.
    rewrite nth_error_app2
      by (cbn [length]; rewrite length_section_steps, length_sections; lia).
    cbn [length]. rewrite length_section_steps, length_sections.
    reflexivity. }
  split.
  { unfold plan. rewrite plan_phases. cbn [skipn].
    rewrite firstn_app, length_section_steps. fold N.
    rewrite Nat.sub_diag, firstn_O, app_nil_r.
    apply firstn_all2. rewrite length_section_steps. apply le_n. }
  intros i heading body Hnth.
  assert (Hi : i < 7).
  { rewrite <- (length_sections title). apply nth_error_Some.
    rewrite Hnth. discriminate. }
  exists (hd (create_step title filename)
             (section_steps filename (heading, body))),
         (hd (create_step title filename)
             (tl (section_steps filename (heading, body)))).
  split; [ | cbn [section_steps hd tl tool params]; repeat split; reflexivity ].
  unfold plan. rewrite plan_phases.
  change (1 + 2 * i) with (S (2 * i)). cbn [skipn].
  rewrite skipn_app, firstn_app, length_skipn, length_section_steps,
          length_sections.
  replace (2 - (2 * 7 - 2 * i)) with 0 by lia.
  rewrite firstn_O, app_nil_r.
  rewrite (nth_section_steps filename (sections title) i heading body Hnth).
  reflexivity.
Qed.

(** Witness for C3: the first section of the plan for the title "React". *)
Lemma plan_has_three_phases_witness :
  nth_error (sections (u "React")) 0
  = Some (hd ([], []) (sections (u "React")))
  /\ exists heading_step body_step,
       firstn 2 (skipn 1 (_react_doc_plan (u "React") (u "React_1")))
       = [heading_step; body_step]
       /\ tool heading_step = u "update_document"
       /\ dict_get (u "action") (params heading_step)
          = Some (PStr (u "add_heading"))
       /\ tool body_step = u "update_document"
       /\ dict_get (u "action") (params body_step) = Some (PStr (u "append")).
Proof.
  split; [reflexivity | ].
  destruct (plan_has_three_phases (u "React") (u "React_1"))
    as (_ & _ & _ & _ & _ & _ & Hsections).
  destruct (Hsections 0 _ _ eq_refl)
    as (heading_step & body_step & Hpair & Ht1 & Ha1 & _ & Ht2 & Ha2 & _).
  exists heading_step, body_step. repeat split; assumption.
Defined.

(* ================================================================== *)
(** ** Sanitizer and request normalization *)

Section Sanitizer.
Context {E : PyEnv}.

Lemma sub_whitespace_runs_no_space (s : pystr) :
  forall in_run,
    Forall (fun c => isspace c = false) (sub_whitespace_runs in_run s).
Proof.
  induction s as [| c s IH]; intros in_run; cbn [sub_whitespace_runs].
  - apply Forall_nil.
  - destruct (isspace c) eqn:Hc.
    + destruct in_run; [apply IH | ].
      apply Forall_cons; [reflexivity | apply IH].
    + apply Forall_cons; [exact Hc | apply IH].
Qed.

(** A run of whitespace in front of a visible character becomes one
    underscore. *)
Lemma whitespace_run_collapses (ws : pystr) (c : N) (rest : pystr) :
  ws <> [] ->
  Forall (fun x => isspace x = true) ws ->
  isspace c = false ->
  sub_whitespace_runs false (ws ++ c :: rest)
  = 95%N :: c :: sub_whitespace_runs false rest.
Proof.
  intros Hne Hws Hc.
  assert (Hrun : forall l, Forall (fun x => isspace x = true) l ->
                           sub_whitespace_runs true (l ++ c :: rest)
                           = c :: sub_whitespace_runs false rest).
  { induction l as [| x l IH]; intros Hl; cbn [app sub_whitespace_runs].
    - rewrite Hc. reflexivity.
    - inversion Hl as [| ? ? Hx Hl']; subst. rewrite Hx. apply IH, Hl'. }
  destruct ws as [| x ws]; [contradiction Hne; reflexivity | ].
  inversion Hws as [| ? ? Hx Hws']; subst.
  cbn [app sub_whitespace_runs]. rewrite Hx, (Hrun ws Hws'). reflexivity.
Qed.

Lemma Forall_firstn {A} (P : A -> Prop) (n : nat) (l : list A) :
  Forall P l -> Forall P (firstn n l).
Proof.
  intros H. revert n. induction H as [| x l Hx Hl IH]; intros [| n];
    cbn [firstn]; try apply Forall_nil.
  apply Forall_cons; [exact Hx | apply IH].
Qed.

Lemma Forall_filter {A} (P : A -> Prop) (f : A -> bool) (l : list A) :
  Forall P l -> Forall P (filter f l).
Proof.
  induction 1 as [| x l Hx Hl IH]; cbn [filter]; [apply Forall_nil | ].
  destruct (f x); [apply Forall_cons; assumption | exact IH].
Qed.

Lemma Forall_filter_true {A} (f : A -> bool) (l : list A) :
  Forall (fun x => f x = true) (filter f l).
Proof.
  induction l as [| x l IH]; cbn [filter]; [apply Forall_nil | ].
  destruct (f x) eqn:Hx; [apply Forall_cons; assumption | exact IH].
Qed.

Lemma kept_char_allowed (c : N) :
  kept_char c = true ->
  word_char c = true \/ c = 95%N \/ c = 45%N
  \/ (0x4e00 <= c <= 0x9fa5)%N.
Proof.
  unfold kept_char. intros H.
  apply orb_true_iff in H. destruct H as [H | H];
    [apply orb_true_iff in H; destruct H as [H | H];
     [apply orb_true_iff in H; destruct H as [H | H] | ] | ].
  - left. exact H.
  - apply andb_true_iff in H. destruct H as [Hlo Hhi].
    apply N.leb_le in Hlo. apply N.leb_le in Hhi.
    right. right. right. split; assumption.
  - right. left. apply N.eqb_eq. exact H.
  - right. right. left. apply N.eqb_eq. exact H.
Qed.

Lemma sanitize_cases (name : pystr) :
  _sanitize_filename name
  = firstn 40 (filter kept_char (sub_whitespace_runs false (strip name))).
Proof.
  unfold _sanitize_filename.
  destruct (filter kept_char (sub_whitespace_runs false (strip name)));
    reflexivity.
Qed.

Lemma length_sanitize (name : pystr) :
  length (_sanitize_filename name) <= 40.
Proof. rewrite sanitize_cases, length_firstn. apply Nat.le_min_l. Qed.

Lemma length_base_name (request : AgentRequest) (title : pystr) (now_s : Z) :
  length (str_int now_s) <= 36 ->
  length (resolve_base_name request title now_s) <= 40.
Proof.
  intros Hs. unfold resolve_base_name.
  destruct (negb _ || _).
  - rewrite length_app. change (length (u "doc_")) with 4. lia.
  - apply length_sanitize.
Qed.

End Sanitizer.

(** C5. For every input string the sanitized base holds only word
    characters, underscores, hyphens and the ideographs U+4E00..U+9FA5,
    holds no whitespace (runs of it were replaced by an underscore before
    filtering), and has at most 40 characters; and, for a clock whose seconds
    reading prints in at most 36 characters, the document identifier has at
    most [40 + 1 + len(str(now_ms))] characters. *)
Theorem sanitized_base_is_safe_and_short `{E : PyEnv} (name : pystr) :
  let base := _sanitize_filename name in
  Forall (fun c => word_char c = true \/ c = 95%N \/ c = 45%N
                   \/ (0x4e00 <= c <= 0x9fa5)%N) base
  /\ Forall (fun c => isspace c = false) base
  /\ length base <= 40
  /\ forall request now_s now_ms,
       length (str_int now_s) <= 36 ->
       length (resolve_filename request (resolve_title request) now_s now_ms)
       <= 40 + 1 + length (str_int now_ms).
Proof.
  intros base. unfold base. split; [ | split; [ | split ] ].
  - rewrite sanitize_cases. apply Forall_firstn.
    eapply Forall_impl; [ | apply Forall_filter_true ].
    intros c Hc. apply kept_char_allowed. exact Hc.
  - rewrite sanitize_cases.
    apply Forall_firstn, Forall_filter, sub_whitespace_runs_no_space.
  - apply length_sanitize.
  - intros request now_s now_ms Hs. unfold resolve_filename.
    rewrite !length_app. change (length (u "_")) with 1.
    pose proof (length_base_name request (resolve_title request) now_s Hs).
    lia.
Qed.

(** C6. Normalization is a total function of the request and the clock.
    The title is the stripped request title when that is not empty,
    otherwise the stripped query when that is not empty, otherwise the
    literal; the base is the sanitized file name (when one is given and not
    empty) or the sanitized title, replaced by ["doc_"] and the seconds
    reading when it has fewer than 3 characters; the identifier is the base,
    an underscore and the milliseconds reading, and is never empty. *)
Theorem request_normalization `{E : PyEnv}
        (request : AgentRequest) (now_s now_ms : Z) :
  let given_title :=
    strip (match req_title request with Some t => t | None => [] end) in
  let query := strip (req_query request) in
  let title := resolve_title request in
  let sanitized :=
    _sanitize_filename (match req_filename request with
                        | Some (c :: f) => c :: f
                        | _ => title
                        end) in
  let base := resolve_base_name request title now_s in
  let document_id := resolve_filename request title now_s now_ms in
  (given_title <> [] -> title = given_title)
  /\ (given_title = [] -> query <> [] -> title = query)
  /\ (given_title = [] -> query = [] -> title = u "新文档")
  /\ (length sanitized < 3 -> base = u "doc_" ++ str_int now_s)
  /\ (3 <= length sanitized -> base = sanitized)
  /\ document_id = base ++ u "_" ++ str_int now_ms
  /\ document_id <> [].
Proof.
  intros given_title query title sanitized base document_id.
  assert (Hgiven :
            strip (match req_title request with
                   | Some t => if nonempty t then t else u ""
                   | None => u ""
                   end) = given_title).
  { unfold given_title. destruct (req_title request) as [[| c t] |]; reflexivity. }
  assert (Hsan :
            _sanitize_filename (match req_filename request with
                                | Some f => if nonempty f then f else title
                                | None => title
                                end) = sanitized).
  { unfold sanitized. destruct (req_filename request) as [[| c f] |]; reflexivity. }
  assert (Htitle :
            title = if negb (nonempty given_title)
                    then (if nonempty query then query else u "新文档")
                    else given_title).
  { unfold title, resolve_title. rewrite Hgiven. reflexivity. }
  assert (Hbase :
            base = if negb (nonempty sanitized) || (length sanitized <? 3)
                   then u "doc_" ++ str_int now_s else sanitized).
  { unfold base, resolve_base_name. fold title. rewrite Hsan. reflexivity. }
  split; [ | split; [ | split; [ | split; [ | split; [ | split ] ] ] ] ].
  - intros Hne. rewrite Htitle.
    destruct given_title; [contradiction Hne | ]; reflexivity.
  - intros Hempty Hq. rewrite Htitle, Hempty.
    destruct query; [contradiction Hq | ]; reflexivity.
  - intros Hempty Hq. rewrite Htitle, Hempty, Hq. reflexivity.
  - intros Hshort. rewrite Hbase.
    apply Nat.ltb_lt in Hshort. rewrite Hshort, orb_true_r. reflexivity.
  - intros Hlong. rewrite Hbase.
    destruct sanitized as [| c s]; [cbn [length] in Hlong; lia | ].
    apply Nat.ltb_ge in Hlong. rewrite Hlong. reflexivity.
  - reflexivity.
  - unfold document_id, resolve_filename. intros Hnil.
    apply (f_equal (@length N)) in Hnil.
    rewrite !length_app in Hnil. change (length (u "_")) with 1 in Hnil.
    cbn [length] in Hnil. lia.
Qed.

(** Witness for C5: a clock reading of ten digits. *)
Lemma sanitized_base_is_safe_and_short_witness :
  length (str_int 1730000000) <= 36
  /\ length (resolve_filename (E := MemEnv.env) sample_request
                              (resolve_title sample_request)
                              1730000000 1730000000123)
     <= 40 + 1 + length (str_int 1730000000123).
Proof.
  assert (Hs : length (str_int 1730000000) <= 36)
    by (apply Nat.leb_le; vm_compute; reflexivity).
  split; [exact Hs | ].
  destruct (sanitized_base_is_safe_and_short (E := MemEnv.env) (u "a b"))
    as (_ & _ & _ & Hid).
  exact (Hid sample_request 1730000000%Z 1730000000123%Z Hs).
Defined.

(** Witness for C6: a request with a title, and a file name too short to
    keep. *)
Lemma request_normalization_witness :
  strip (u "  React 入门 ") <> []
  /\ resolve_title titled_request = strip (u "  React 入门 ")
  /\ length (_sanitize_filename (E := MemEnv.env) (u "ab")) < 3
  /\ resolve_base_name (E := MemEnv.env) titled_request
                       (resolve_title titled_request) 1730000000
     = u "doc_" ++ str_int 1730000000
  /\ resolve_filename (E := MemEnv.env) titled_request
                      (resolve_title titled_request) 1730000000 1730000000123
     = resolve_base_name (E := MemEnv.env) titled_request
                         (resolve_title titled_request) 1730000000
       ++ u "_" ++ str_int 1730000000123.
Proof.
  assert (Hne : strip (u "  React 入门 ") <> []) by (vm_compute; discriminate).
  assert (Hshort : length (_sanitize_filename (E := MemEnv.env) (u "ab")) < 3)
    by (apply Nat.ltb_lt; vm_compute; reflexivity).
  destruct (request_normalization (E := MemEnv.env) titled_request
              1730000000 1730000000123)
    as (Htitle & _ & _ & Hbase & _ & Hid & _).
  split; [exact Hne | ]. split; [exact (Htitle Hne) | ].
  split; [exact Hshort | ]. split; [exact (Hbase Hshort) | exact Hid].
Defined.

(* ================================================================== *)
(** ** The bare subscription *)

Lemma pystr_eqb_eq (a b : pystr) : pystr_eqb a b = true -> a = b.
Proof.
  unfold pystr_eqb. destruct (list_eq_dec N.eq_dec a b) as [Heq | Hne];
    [intros _; exact Heq | discriminate].
Qed.

Lemma has_type_exclusive (t t' : string) (e : event) :
  pystr_eqb (u t) (u t') = false ->
  has_type t e = true -> has_type t' e = false.
Proof.
  unfold has_type. intros Hdiff.
  destruct (event_type e) as [[| | | | s | |] |]; try discriminate.
  intros Hs. apply pystr_eqb_eq in Hs. subst s. exact Hdiff.
Qed.

Lemma count_type_exclusive (t t' : string) (events : list event) :
  pystr_eqb (u t) (u t') = false ->
  Forall (fun e => has_type t e = true) events ->
  count_type t' events = 0.
Proof.
  intros Hdiff Hall. unfold count_type.
  induction Hall as [| e events He Hall IH]; [reflexivity | ].
  cbn [filter]. rewrite (has_type_exclusive t t' e Hdiff He). exact IH.
Qed.

Section BareSubscription.
Variable is_disconnected : nat -> bool.
Variable now : nat -> pystr.

Lemma heartbeat_loop_beats (fuel : nat) :
  forall n,
    Forall (fun e => has_type "heartbeat" e = true)
           (fst (heartbeat_loop is_disconnected now fuel n)).
Proof.
  induction fuel as [| fuel IH]; intros n; cbn [heartbeat_loop].
  - apply Forall_nil.
  - destruct (is_disconnected n); [apply Forall_nil | ].
    specialize (IH (S n)).
    destruct (heartbeat_loop is_disconnected now fuel (S n)) as [rest status].
    apply Forall_cons; [reflexivity | exact IH].
Qed.

(** The loop stops at the first check that sees the peer gone. *)
Lemma heartbeat_loop_stops (d : nat) :
  forall fuel n,
    d < fuel ->
    is_disconnected (n + d) = true ->
    (forall j, j < d -> is_disconnected (n + j) = false) ->
    heartbeat_loop is_disconnected now fuel n = (beats_from now n d, Stopped).
Proof.
  induction d as [| d IH]; intros [| fuel] n Hfuel Hgone Hconn;
    try (exfalso; lia); cbn [heartbeat_loop].
  - rewrite Nat.add_0_r in Hgone. rewrite Hgone. reflexivity.
  - pose proof (Hconn 0 (Nat.lt_0_succ d)) as H0.
    rewrite Nat.add_0_r in H0. rewrite H0.
    rewrite (IH fuel (S n)).
    + reflexivity.
    + lia.
    + replace (S n + d) with (n + S d) by lia. exact Hgone.
    + intros j Hj. replace (S n + j) with (n + S j) by lia.
      apply Hconn. lia.
Qed.

(** While the peer stays, every turn of the loop yields a heartbeat. *)
Lemma heartbeat_loop_goes_on (fuel : nat) :
  forall n,
    (forall j, j < fuel -> is_disconnected (n + j) = false) ->
    heartbeat_loop is_disconnected now fuel n = (beats_from now n fuel, Suspended).
Proof.
  induction fuel as [| fuel IH]; intros n Hconn; cbn [heartbeat_loop].
  - reflexivity.
  - pose proof (Hconn 0 (Nat.lt_0_succ fuel)) as H0.
    rewrite Nat.add_0_r in H0. rewrite H0.
    rewrite (IH (S n)); [reflexivity | ].
    intros j Hj. replace (S n + j) with (n + S j) by lia.
    apply Hconn. lia.
Qed.

End BareSubscription.

(** C8. The frames of a bare subscription are one [connected], then one
    [tools] listing the seven operation names, then heartbeats only: no
    [start], [result] or [done].  The heartbeats stop at the first check
    that sees the peer gone, and go on for as long as it stays. *)
Theorem bare_subscription_frames `{E : PyEnv}
        (is_disconnected : nat -> bool) (now : nat -> pystr) (fuel : nat) :
  exists beats status,
    event_generator is_disconnected now fuel
    = (connected_event :: tools_event :: beats, status)
    /\ has_type "connected" connected_event = true
    /\ has_type "tools" tools_event = true
    /\ dict_get (u "tools") tools_event
       = Some (PList (map PStr (map fst TOOL_HANDLERS)))
    /\ Forall (fun e => has_type "heartbeat" e = true) beats
    /\ count_type "connected" (connected_event :: tools_event :: beats) = 1
    /\ count_type "tools" (connected_event :: tools_event :: beats) = 1
    /\ count_type "start" (connected_event :: tools_event :: beats) = 0
    /\ count_type "result" (connected_event :: tools_event :: beats) = 0
    /\ count_type "done" (connected_event :: tools_event :: beats) = 0
    /\ (forall d,
           d < fuel ->
           is_disconnected d = true ->
           (forall j, j < d -> is_disconnected j = false) ->
           beats = beats_from now 0 d /\ status = Stopped)
    /\ ((forall j, j < fuel -> is_disconnected j = false) ->
        beats = beats_from now 0 fuel /\ status = Suspended).
Proof.
  unfold event_generator.
  pose proof (heartbeat_loop_beats is_disconnected now fuel 0) as Hbeats.
  pose proof (fun d => heartbeat_loop_stops is_disconnected now d fuel 0)
    as Hstops.
  pose proof (heartbeat_loop_goes_on is_disconnected now fuel 0) as Hgoes.
  destruct (heartbeat_loop is_disconnected now fuel 0) as [beats status].
  cbn [fst] in Hbeats.
  exists beats, status.
  split; [reflexivity | ]. split; [reflexivity | ]. split; [reflexivity | ].
  split; [reflexivity | ]. split; [exact Hbeats | ].
  assert (Hcount : forall t,
             pystr_eqb (u "heartbeat") (u t) = false ->
             count_type t (connected_event :: tools_event :: beats)
             = (if has_type t connected_event then 1 else 0)
               + (if has_type t tools_event then 1 else 0)).
  { intros t Ht. unfold count_type. cbn [filter].
    pose proof (count_type_exclusive "heartbeat" t beats Ht Hbeats) as H0.
    unfold count_type in H0.
    destruct (has_type t connected_event), (has_type t tools_event);
      cbn [length]; rewrite H0; reflexivity. }
  repeat (split; [rewrite Hcount by reflexivity; reflexivity | ]).
  split.
  - intros d Hd Hgone Hconn.
    specialize (Hstops d Hd Hgone Hconn). inversion Hstops. split; reflexivity.
  - intros Hconn. specialize (Hgoes Hconn). inversion Hgoes. split; reflexivity.
Qed.

(** Witness for C8: the peer leaves before the third heartbeat. *)
Lemma bare_subscription_frames_witness :
  2 < 5
  /\ Nat.leb 2 2 = true
  /\ (forall j, j < 2 -> Nat.leb 2 j = false)
  /\ event_generator (Nat.leb 2) (fun _ => u "2024-01-01T00:00:00") 5
     = (connected_event :: tools_event
          :: beats_from (fun _ => u "2024-01-01T00:00:00") 0 2,
        Stopped).
Proof.
  assert (Hfuel : 2 < 5) by lia.
  assert (Hconn : forall j, j < 2 -> Nat.leb 2 j = false)
    by (intros j Hj; apply Nat.leb_gt; exact Hj).
  split; [exact Hfuel | ]. split; [reflexivity | ]. split; [exact Hconn | ].
  destruct (bare_subscription_frames (E := MemEnv.env) (Nat.leb 2)
              (fun _ => u "2024-01-01T00:00:00") 5)
    as (beats & status & Hrun & _ & _ & _ & _ & _ & _ & _ & _ & _ & Hstop & _).
  destruct (Hstop 2 Hfuel eq_refl Hconn) as [Hb Hs].
  rewrite Hrun, Hb, Hs. reflexivity.
Defined.

(* ================================================================== *)
(** ** Direct calls *)

(** C9. [POST /call] with a name outside the registry returns the failure
    dict naming it, touching nothing; with a registered name it is the call
    of that handler on the request's parameters, which, when the parameters
    fit the handler's signature, returns that handler's [OperationResult]. *)
Theorem direct_call `{E : PyEnv} (request : ToolCallRequest) (w : World) :
  (dict_get (tc_tool request) TOOL_HANDLERS = None ->
   call_tool request w
   = (Ret [(u "success", PBool false);
           (u "error", PStr (u "未知工具: " ++ tc_tool request))],
      w))
  /\ (forall handler,
         dict_get (tc_tool request) TOOL_HANDLERS = Some handler ->
         call_tool request w = call handler (tc_params request) w
         /\ (binds handler (tc_params request) = true ->
             exists result w',
               call_tool request w = (Ret result, w')
               /\ OperationResult result)).
Proof.
  unfold call_tool, call_tool_in. split.
  - intros Hnone. rewrite Hnone. reflexivity.
  - intros handler Hsome. rewrite Hsome.
    assert (Hsame : bind (call handler (tc_params request))
                         (fun result => ret result) w
                    = call handler (tc_params request) w).
    { unfold bind, ret.
      destruct (call handler (tc_params request) w) as [[r | e] w'];
        reflexivity. }
    split; [exact Hsame | ].
    intros Hbinds. rewrite Hsame.
    exact (call_returns handler (tc_params request)
                        (registered_total _ _ Hsome) Hbinds w).
Qed.

(** Witness for C9: a name that is not registered. *)
Lemma direct_call_witness :
  dict_get (tc_tool unknown_call) (TOOL_HANDLERS (E := MemEnv.env)) = None
  /\ call_tool (E := MemEnv.env) unknown_call MemEnv.empty_world
     = (Ret [(u "success", PBool false);
             (u "error", PStr (u "未知工具: " ++ u "translate_document"))],
        MemEnv.empty_world).
Proof.
  split; [reflexivity | ].
  exact (proj1 (direct_call (E := MemEnv.env) unknown_call MemEnv.empty_world)
               eq_refl).
Defined.

(* ================================================================== *)
(** ** Runs of the model *)

(** The peer leaves before step 3: two triples, then [done]. *)
Example agent_stream_gone_at_3 :
  map event_type
    (fst (fst (stream_response (E := MemEnv.env) sample_request
                               1730000000 1730000000123 gone_at_3
                               MemEnv.empty_world)))
  = map (fun t => Some (PStr t))
        [u "start";
         u "progress"; u "start"; u "result";
         u "progress"; u "start"; u "result";
         u "done"].
Proof. vm_compute. reflexivity. Qed.

(** A plan cut down to one step naming no registered operation. *)
Example one_unknown_step :
  map event_type
    (fst (fst (run_plan (E := MemEnv.env) TOOL_HANDLERS [unknown_step]
                        (u "React") (u "React_1") never_gone
                        MemEnv.empty_world)))
  = map (fun t => Some (PStr t)) [u "progress"; u "start"; u "error"].
Proof. vm_compute. reflexivity. Qed.

(** On a read-only store all sixteen results report failure and the stream
    still ends with [done]. *)
Example agent_stream_read_only :
  let events :=
    fst (fst (stream_response (E := MemEnv.env) sample_request
                              1730000000 1730000000123 never_gone
                              MemEnv.read_only_world)) in
  count_type "result" events = 16
  /\ count_type "done" events = 1
  /\ length (filter (fun e =>
                       match dict_get (u "data") e with
                       | Some (PDict d) =>
                           match dict_get (u "success") d with
                           | Some (PBool false) => true
                           | _ => false
                           end
                       | _ => false
                       end) events) = 16.
Proof. vm_compute. repeat split; reflexivity. Qed.

(** A registered tool called without its required argument: the call
    raises before the handler is entered. *)
Example read_document_without_filename :
  fst (call_tool (E := MemEnv.env)
                 {| tc_tool := u "read_document"; tc_params := [] |}
                 MemEnv.empty_world)
  = Raise (TypeError "missing a required positional argument").
Proof. vm_compute. reflexivity. Qed.

Example sanitize_sample :
  _sanitize_filename (E := MemEnv.env) (u "  Hello   World!  新文档 a-b_c  ")
  = u "Hello_World_新文档_a-b_c".
Proof. vm_compute. reflexivity. Qed.

(* ================================================================== *)
(** ** Edge cases of the tools *)

Section Evaluation.
Context {W : Type}.

Lemma bind_returned {A B} (m : M W A) (k : A -> M W B) (w w' : W) (a : A) :
  m w = (Ret a, w') -> bind m k w = k a w'.
Proof. intros H. unfold bind. rewrite H. reflexivity. Qed.

Lemma bind_raised {A B} (m : M W A) (k : A -> M W B) (w w' : W) (e : exn) :
  m w = (Raise e, w') -> bind m k w = (Raise e, w').
Proof. intros H. unfold bind. rewrite H. reflexivity. Qed.

Lemma try_returned {A} (body : M W A) (h : exn -> M W A) (w w' : W) (a : A) :
  body w = (Ret a, w') -> try_except body h w = (Ret a, w').
Proof. intros H. unfold try_except. rewrite H. reflexivity. Qed.

Lemma try_raised {A} (body : M W A) (h : exn -> M W A) (w w' : W) (e : exn) :
  body w = (Raise e, w') -> try_except body h w = h e w'.
Proof. intros H. unfold try_except. rewrite H. reflexivity. Qed.

Lemma post_try_except {A} (body : M W A) (h : exn -> M W A) (Q : A -> Prop) :
  post body Q -> (forall e, post (h e) Q) -> post (try_except body h) Q.
Proof.
  intros Hbody Hh w a w' H. unfold try_except in H.
  destruct (body w) as [[b | e] w1] eqn:Hrun.
  - inversion H; subst. exact (Hbody w a w' Hrun).
  - exact (Hh e w1 a w' H).
Qed.

End Evaluation.

Section ToolEdges.
Context {E : PyEnv}.

Lemma get_file_path_str (s : pystr) (w : World) :
  get_file_path (PStr s) w = (Ret (resolved_path s), w).
Proof.
  unfold get_file_path, resolved_path, bind, Path, truediv, ret.
  destruct (is_absolute (path_of_str s)); cbn [negb];
    match goal with
    | |- context [endswith ?a ?b] => destruct (endswith a b)
    end; reflexivity.
Qed.

Lemma get_file_path_not_str (v : pyval) (w : World) :
  (forall s, v <> PStr s) ->
  exists e, get_file_path v w = (Raise e, w) /\ exc_class e = "TypeError"%string.
Proof.
  intros Hv. unfold get_file_path, bind, Path.
  destruct v; try (eexists; split; reflexivity).
  contradiction (Hv s). reflexivity.
Qed.

Lemma failed_at_path (v : pyval) (w : World) (k : path -> M World pydict) :
  (forall s, v <> PStr s) ->
  exists msg,
    try_except (bind (get_file_path v) k) report w
    = (Ret [(u "success", PBool false); (u "error", PStr msg)], w).
Proof.
  intros Hv. destruct (get_file_path_not_str v w Hv) as (e & Hrun & _).
  exists (exc_str e).
  rewrite (try_raised _ _ w w e); [reflexivity | ].
  apply bind_raised. exact Hrun.
Qed.

Lemma missing_at_path (s : pystr) (w w' : World)
      (k : document -> path -> M World pydict) :
  path_exists (resolved_path s) w = (Ret false, w') ->
  try_except
    (bind (get_file_path (PStr s)) (fun file_path =>
       bind (path_exists file_path) (fun found =>
         if negb found then ret (file_missing (PStr s))
         else bind (Document_open (path_str file_path))
                   (fun doc => k doc file_path))))
    report w
  = (Ret (file_missing (PStr s)), w').
Proof.
  intros Hmissing. apply try_returned.
  rewrite (bind_returned _ _ w w (resolved_path s)) by apply get_file_path_str.
  rewrite (bind_returned _ _ w w' false) by exact Hmissing.
  reflexivity.
Qed.

End ToolEdges.

(** X1. The five tools that need a file name answer a file name that is not
    a string (a number, [null], a list, ...) with a failure result carrying
    an error text, and touch neither the file system nor any document.
    [create_document] does the same for such a value when it is truthy. *)
Theorem non_string_filename_is_rejected `{E : PyEnv}
        (filename a b c : pyval) (w : World) :
  (forall s, filename <> PStr s) ->
  let rejected (run : outcome pydict * World) :=
    exists msg,
      run = (Ret [(u "success", PBool false); (u "error", PStr msg)], w) in
  rejected (read_document filename w)
  /\ rejected (update_document filename a b c w)
  /\ rejected (delete_document filename w)
  /\ rejected (add_table filename a b w)
  /\ rejected (search_replace filename a b w)
  /\ (truthy filename = true -> rejected (create_document filename a b w)).
Proof.
  intros Hv rejected. unfold rejected.
  repeat split; try (apply failed_at_path; exact Hv).
  intros Htruthy. unfold create_document.
  destruct (get_file_path_not_str filename w Hv) as (e & Hrun & _).
  exists (exc_str e).
  rewrite (try_raised _ _ w w e); [reflexivity | ].
  rewrite Htruthy. cbn [negb].
  rewrite (bind_returned _ _ w w filename) by reflexivity.
  apply bind_raised. exact Hrun.
Qed.

(** Witness for X1: the file name 42. *)
Lemma non_string_filename_is_rejected_witness :
  (forall s, PInt 42 <> PStr s)
  /\ exists msg,
       read_document (E := MemEnv.env) (PInt 42) MemEnv.empty_world
       = (Ret [(u "success", PBool false); (u "error", PStr msg)],
          MemEnv.empty_world).
Proof.
  assert (Hv : forall s, PInt 42 <> PStr s) by (intros s; discriminate).
  split; [exact Hv | ].
  exact (proj1 (non_string_filename_is_rejected (E := MemEnv.env)
                  (PInt 42) PNone PNone PNone MemEnv.empty_world Hv)).
Defined.

(** X2. When the file the name resolves to does not exist, the five tools
    that work on an existing document return the failure
    ["文件不存在: <filename>"] right after the existence check: no document
    is opened, changed or saved. *)
Theorem missing_file_is_reported `{E : PyEnv}
        (s : pystr) (a b c : pyval) (w w' : World) :
  path_exists (resolved_path s) w = (Ret false, w') ->
  let missing : outcome pydict * World :=
    (Ret [(u "success", PBool false);
          (u "error", PStr (u "文件不存在: " ++ s))], w') in
  read_document (PStr s) w = missing
  /\ update_document (PStr s) a b c w = missing
  /\ delete_document (PStr s) w = missing
  /\ add_table (PStr s) a b w = missing
  /\ search_replace (PStr s) a b w = missing.
Proof.
  intros Hmissing missing. unfold missing.
  change [(u "success", PBool false);
          (u "error", PStr (u "文件不存在: " ++ s))]
    with (file_missing (PStr s)).
  repeat split.
  - exact (missing_at_path s w w' _ Hmissing).
  - exact (missing_at_path s w w' _ Hmissing).
  - unfold delete_document. apply try_returned.
    rewrite (bind_returned _ _ w w (resolved_path s)) by apply get_file_path_str.
    rewrite (bind_returned _ _ w w' false) by exact Hmissing.
    reflexivity.
  - exact (missing_at_path s w w' _ Hmissing).
  - exact (missing_at_path s w w' _ Hmissing).
Qed.

(** Witness for X2: an empty store. *)
Lemma missing_file_is_reported_witness :
  @path_exists MemEnv.env (@resolved_path MemEnv.env (u "notes")) MemEnv.empty_world
  = (Ret false, MemEnv.empty_world)
  /\ delete_document (E := MemEnv.env) (PStr (u "notes")) MemEnv.empty_world
     = (Ret [(u "success", PBool false);
             (u "error", PStr (u "文件不存在: " ++ u "notes"))],
        MemEnv.empty_world).
Proof.
  assert (H : @path_exists MemEnv.env (@resolved_path MemEnv.env (u "notes"))
                          MemEnv.empty_world
              = (Ret false, MemEnv.empty_world)) by reflexivity.
  split; [exact H | ].
  destruct (missing_file_is_reported (E := MemEnv.env) (u "notes")
              PNone PNone PNone MemEnv.empty_world MemEnv.empty_world H)
    as (_ & _ & Hdelete & _).
  exact Hdelete.
Defined.

(** X3. On an existing document, [update_document] with an action outside
    the four known ones, or with a known action whose content or paragraph
    index is missing, returns the failure ["无效的操作或缺少参数"]; the document
    it opened is neither changed nor saved. *)
Theorem invalid_update_is_refused `{E : PyEnv}
        (s : pystr) (action content paragraph_index : pyval)
        (w w1 w2 : World) (doc : document) :
  path_exists (resolved_path s) w = (Ret true, w1) ->
  Document_open (path_str (resolved_path s)) w1 = (Ret doc, w2) ->
  update_applies action content paragraph_index = false ->
  update_document (PStr s) action content paragraph_index w
  = (Ret [(u "success", PBool false);
          (u "error", PStr (u "无效的操作或缺少参数"))], w2).
Proof.
  intros Hexists Hopen Hguard. unfold update_applies in Hguard.
  apply orb_false_iff in Hguard. destruct Hguard as [Hguard Hreplace].
  apply orb_false_iff in Hguard. destruct Hguard as [Hguard Hinsert].
  apply orb_false_iff in Hguard. destruct Hguard as [Happend Hheading].
  unfold update_document. apply try_returned.
  rewrite (bind_returned _ _ w w (resolved_path s)) by apply get_file_path_str.
  rewrite (bind_returned _ _ w w1 true) by exact Hexists.
  cbn [negb].
  rewrite (bind_returned _ _ w1 w2 doc) by exact Hopen.
  cbv zeta. rewrite Happend, Hheading, Hinsert, Hreplace. reflexivity.
Qed.

(** Witness for X3: appending an empty content to a stored document. *)
Lemma invalid_update_is_refused_witness :
  let stored : MemEnv.world :=
    {| MemEnv.files := [(u "word/notes.docx",
                         {| MemEnv.pars := [u "hello"]; MemEnv.tabs := [] |})];
       MemEnv.heap := []; MemEnv.writable := true;
       MemEnv.clock := u "20240101_000000" |} in
  update_applies (PStr (u "append")) (PStr (u "")) PNone = false
  /\ exists w2,
       update_document (E := MemEnv.env) (PStr (u "notes"))
                       (PStr (u "append")) (PStr (u "")) PNone stored
       = (Ret [(u "success", PBool false);
               (u "error", PStr (u "无效的操作或缺少参数"))], w2)
       /\ MemEnv.files w2 = MemEnv.files stored.
Proof.
  intros stored. split; [reflexivity | ].
  eexists. split.
  - eapply (invalid_update_is_refused (E := MemEnv.env) (u "notes")
              (PStr (u "append")) (PStr (u "")) PNone stored);
      reflexivity.
  - reflexivity.
Defined.

(** X4. [update_document] with action [insert] or [replace] and an integer
    index at or beyond the number of paragraphs edits nothing, yet saves the
    document and reports success. *)
Theorem update_beyond_the_end_succeeds `{E : PyEnv}
        (s : pystr) (action content : pyval) (z : Z)
        (w w1 w2 w3 w4 : World) (doc : document) (ps : list paragraph) :
  path_exists (resolved_path s) w = (Ret true, w1) ->
  Document_open (path_str (resolved_path s)) w1 = (Ret doc, w2) ->
  paragraphs doc w2 = (Ret ps, w3) ->
  save doc (path_str (resolved_path s)) w3 = (Ret tt, w4) ->
  (Z.of_nat (length ps) <= z)%Z ->
  (action = PStr (u "insert") /\ truthy content = true)
  \/ action = PStr (u "replace") ->
  update_document (PStr s) action content (PInt z) w
  = (Ret [(u "success", PBool true);
          (u "message", PStr (u "文档更新成功"));
          (u "action", action)], w4).
Proof.
  intros Hexists Hopen Hpars Hsave Hz Haction.
  assert (Hlt : (z <? Z.of_nat (length ps))%Z = false)
    by (apply Z.ltb_ge; exact Hz).
  unfold update_document. apply try_returned.
  rewrite (bind_returned _ _ w w (resolved_path s)) by apply get_file_path_str.
  rewrite (bind_returned _ _ w w1 true) by exact Hexists.
  cbn [negb].
  rewrite (bind_returned _ _ w1 w2 doc) by exact Hopen.
  cbv zeta.
  destruct Haction as [[Ha Hc] | Ha]; subst action.
  - change (eq_str (PStr (u "insert")) (u "append")) with false.
    change (eq_str (PStr (u "insert")) (u "add_heading")) with false.
    change (eq_str (PStr (u "insert")) (u "insert")) with true.
    rewrite Hc. cbn [andb is_not_None].
    rewrite (bind_returned _ _ w2 w3 ps) by exact Hpars.
    unfold py_lt. rewrite (bind_returned _ _ w3 w3 false)
      by (unfold ret; rewrite Hlt; reflexivity).
    rewrite (bind_returned _ _ w3 w3 tt) by reflexivity.
    rewrite (bind_returned _ _ w3 w4 tt) by exact Hsave.
    reflexivity.
  - change (eq_str (PStr (u "replace")) (u "append")) with false.
    change (eq_str (PStr (u "replace")) (u "add_heading")) with false.
    change (eq_str (PStr (u "replace")) (u "insert")) with false.
    change (eq_str (PStr (u "replace")) (u "replace")) with true.
    cbn [andb is_not_None].
    rewrite (bind_returned _ _ w2 w3 ps) by exact Hpars.
    unfold py_lt. rewrite (bind_returned _ _ w3 w3 false)
      by (unfold ret; rewrite Hlt; reflexivity).
    rewrite (bind_returned _ _ w3 w3 tt) by reflexivity.
    rewrite (bind_returned _ _ w3 w4 tt) by exact Hsave.
    reflexivity.
Qed.

(** Witness for X4: inserting at index 5 into a document of one paragraph. *)
Lemma update_beyond_the_end_succeeds_witness :
  (Z.of_nat 1 <= 5)%Z
  /\ exists w4,
       update_document (E := MemEnv.env) (PStr (u "notes"))
                       (PStr (u "insert")) (PStr (u "new")) (PInt 5)
                       MemEnv.one_note_world
       = (Ret [(u "success", PBool true);
               (u "message", PStr (u "文档更新成功"));
               (u "action", PStr (u "insert"))], w4)
       /\ MemEnv.files w4 = MemEnv.files MemEnv.one_note_world.
Proof.
  assert (Hz : (Z.of_nat 1 <= 5)%Z) by (apply Z.leb_le; reflexivity).
  split; [exact Hz | ].
  eexists. split.
  - eapply (update_beyond_the_end_succeeds (E := MemEnv.env) (u "notes")
              (PStr (u "insert")) (PStr (u "new")) 5 MemEnv.one_note_world);
      try reflexivity.
    + exact Hz.
    + left. split; reflexivity.
  - reflexivity.
Defined.

(** X5. [add_table] on an existing document with no title and no rows
    ([None], [[]], ...) adds nothing, yet saves the document and reports
    ["表格添加成功"]. *)
Theorem empty_table_is_reported_added `{E : PyEnv}
        (s : pystr) (table_data title : pyval)
        (w w1 w2 w3 : World) (doc : document) :
  path_exists (resolved_path s) w = (Ret true, w1) ->
  Document_open (path_str (resolved_path s)) w1 = (Ret doc, w2) ->
  save doc (path_str (resolved_path s)) w2 = (Ret tt, w3) ->
  truthy title = false ->
  truthy table_data = false ->
  add_table (PStr s) table_data title w
  = (Ret [(u "success", PBool true); (u "message", PStr (u "表格添加成功"))],
     w3).
Proof.
  intros Hexists Hopen Hsave Htitle Hdata.
  unfold add_table. apply try_returned.
  rewrite (bind_returned _ _ w w (resolved_path s)) by apply get_file_path_str.
  rewrite (bind_returned _ _ w w1 true) by exact Hexists.
  cbn [negb].
  rewrite (bind_returned _ _ w1 w2 doc) by exact Hopen.
  rewrite Htitle, Hdata.
  rewrite (bind_returned _ _ w2 w2 tt) by reflexivity.
  rewrite (bind_returned _ _ w2 w2 tt) by reflexivity.
  rewrite (bind_returned _ _ w2 w3 tt) by exact Hsave.
  reflexivity.
Qed.

(** Witness for X5: an empty list of rows. *)
Lemma empty_table_is_reported_added_witness :
  truthy (PList []) = false
  /\ exists w3,
       add_table (E := MemEnv.env) (PStr (u "notes")) (PList []) PNone
                 MemEnv.one_note_world
       = (Ret [(u "success", PBool true);
               (u "message", PStr (u "表格添加成功"))], w3)
       /\ map (fun kv => MemEnv.tabs (snd kv)) (MemEnv.files w3) = [[]].
Proof.
  split; [reflexivity | ].
  eexists. split.
  - eapply (empty_table_is_reported_added (E := MemEnv.env) (u "notes")
              (PList []) PNone MemEnv.one_note_world);
      reflexivity.
  - reflexivity.
Defined.



(* ================================================================== *)
(** ** What successful results contain *)

Section Postconditions.
Context {W : Type}.

Lemma post_bind_with {A B} (m : M W A) (k : A -> M W B)
      (P : A -> Prop) (Q : B -> Prop) :
  post m P -> (forall a, P a -> post (k a) Q) -> post (bind m k) Q.
Proof.
  intros Hm Hk w b w' H. unfold bind in H.
  destruct (m w) as [[a | e] w1] eqn:Hrun.
  - exact (Hk a (Hm w a w1 Hrun) w1 b w' H).
  - discriminate H.
Qed.

Lemma post_for_collect {A B} (f : A -> M W B) (P : B -> Prop) (xs : list A) :
  (forall x, post (f x) P) -> post (for_collect xs f) (Forall P).
Proof.
  intros Hf. induction xs as [| x xs IH]; cbn [for_collect].
  - apply post_ret. apply Forall_nil.
  - apply (post_bind_with _ _ P); [apply Hf | ]. intros y Hy.
    apply (post_bind_with _ _ (Forall P)); [exact IH | ]. intros ys Hys.
    apply post_ret. apply Forall_cons; assumption.
Qed.

End Postconditions.

(** X7. A successful result of [read_document] is consistent with itself:
    [paragraph_count] is the number of [paragraphs], [full_text] is the
    paragraphs joined by line feeds, and [table_count] is the number of
    [tables]. *)
Theorem read_result_is_consistent `{E : PyEnv}
        (filename : pyval) (w w' : World) (d : pydict) :
  read_document filename w = (Ret d, w') ->
  dict_get (u "success") d = Some (PBool true) ->
  exists (texts : list pystr) (tabs : list (list (list pystr))),
    dict_get (u "paragraphs") d = Some (PList (map PStr texts))
    /\ dict_get (u "paragraph_count") d
       = Some (PInt (Z.of_nat (length texts)))
    /\ dict_get (u "full_text") d = Some (PStr (join LF texts))
    /\ dict_get (u "tables") d
       = Some (PList (map (fun t => PList (map (fun r => PList (map PStr r)) t))
                          tabs))
    /\ dict_get (u "table_count") d = Some (PInt (Z.of_nat (length tabs))).
Proof.
  revert w d w'.
  change (post (read_document filename)
               (fun d =>
                  dict_get (u "success") d = Some (PBool true) ->
                  exists texts tabs,
                    dict_get (u "paragraphs") d = Some (PList (map PStr texts))
                    /\ dict_get (u "paragraph_count") d
                       = Some (PInt (Z.of_nat (length texts)))
                    /\ dict_get (u "full_text") d = Some (PStr (join LF texts))
                    /\ dict_get (u "tables") d
                       = Some (PList (map (fun t =>
                                             PList (map (fun r =>
                                                           PList (map PStr r)) t))
                                          tabs))
                    /\ dict_get (u "table_count") d
                       = Some (PInt (Z.of_nat (length tabs))))).
  unfold read_document. apply post_try_except.
  - post_body.
    + intros Hfail. discriminate Hfail.
    + intros _. do 2 eexists. repeat split; reflexivity.
  - intros e. unfold report. apply post_ret. intros Hfail. discriminate Hfail.
Qed.

(** Witness for X7: reading the stored note. *)
Lemma read_result_is_consistent_witness :
  exists d w',
    read_document (E := MemEnv.env) (PStr (u "notes")) MemEnv.one_note_world
    = (Ret d, w')
    /\ dict_get (u "success") d = Some (PBool true)
    /\ dict_get (u "paragraph_count") d = Some (PInt 1)
    /\ dict_get (u "full_text") d = Some (PStr (u "hello")).
Proof.
  eexists. eexists.
  assert (Hrun : read_document (E := MemEnv.env) (PStr (u "notes"))
                               MemEnv.one_note_world
                 = (Ret [(u "success", PBool true);
                         (u "file_path", PStr (u "word/notes.docx"));
                         (u "paragraphs", PList [PStr (u "hello")]);
                         (u "paragraph_count", PInt 1);
                         (u "tables", PList []);
                         (u "table_count", PInt 0);
                         (u "full_text", PStr (u "hello"))],
                    {| MemEnv.files := MemEnv.files MemEnv.one_note_world;
                       MemEnv.heap := [{| MemEnv.pars := [u "hello"];
                                          MemEnv.tabs := [] |}];
                       MemEnv.writable := true;
                       MemEnv.clock := u "20240101_000000" |}))
    by (vm_compute; reflexivity).
  split; [exact Hrun | ]. split; [reflexivity | ].
  destruct (read_result_is_consistent (E := MemEnv.env) _ _ _ _ Hrun eq_refl)
    as (texts & tabs & _ & Hcount & Htext & _).
  split; reflexivity.
Defined.

(** X8. A result of [list_documents] that reports success lists dicts with
    exactly the fields [name], [path], [size] and [modified], and its
    [count] is the number of documents listed. *)
Theorem listing_is_consistent `{E : PyEnv} (w w' : World) (d : pydict) :
  list_documents w = (Ret d, w') ->
  dict_get (u "success") d = Some (PBool true) ->
  exists docs : list pyval,
    dict_get (u "documents") d = Some (PList docs)
    /\ dict_get (u "count") d = Some (PInt (Z.of_nat (length docs)))
    /\ Forall (fun doc =>
                 exists name path size modified,
                   doc = PDict [(u "name", PStr name); (u "path", PStr path);
                                (u "size", PInt size);
                                (u "modified", PStr modified)])
              docs.
Proof.
  revert w d w'.
  change (post list_documents
               (fun d =>
                  dict_get (u "success") d = Some (PBool true) ->
                  exists docs,
                    dict_get (u "documents") d = Some (PList docs)
                    /\ dict_get (u "count") d
                       = Some (PInt (Z.of_nat (length docs)))
                    /\ Forall (fun doc =>
                                 exists name path size modified,
                                   doc = PDict [(u "name", PStr name);
                                                (u "path", PStr path);
                                                (u "size", PInt size);
                                                (u "modified", PStr modified)])
                              docs)).
  unfold list_documents. apply post_try_except.
  - apply post_bind. intros files.
    pose (entry := fun doc : pyval =>
                     exists name path size modified,
                       doc = PDict [(u "name", PStr name);
                                    (u "path", PStr path);
                                    (u "size", PInt size);
                                    (u "modified", PStr modified)]).
    apply (post_bind_with _ _ (Forall entry)).
    + apply post_for_collect. intros file.
      apply post_bind. intros st. apply post_bind. intros modified.
      apply post_ret.
      exists (path_name file), (path_str file), (st_size st), modified.
      reflexivity.
    + cbv beta. intros docs Hdocs. apply post_ret. intros _.
      exists docs. repeat split; [reflexivity .. | exact Hdocs].
  - intros e. unfold report. apply post_ret. intros Hfail. discriminate Hfail.
Qed.

(** Witness for X8: the listing of a store with one document. *)
Lemma listing_is_consistent_witness :
  exists d w',
    list_documents (E := MemEnv.env) MemEnv.one_note_world = (Ret d, w')
    /\ dict_get (u "success") d = Some (PBool true)
    /\ dict_get (u "count") d = Some (PInt 1).
Proof.
  eexists. eexists.
  assert (Hrun : list_documents (E := MemEnv.env) MemEnv.one_note_world
                 = (Ret [(u "success", PBool true);
                         (u "count", PInt 1);
                         (u "documents",
                          PList [PDict [(u "name", PStr (u "notes.docx"));
                                        (u "path", PStr (u "word/notes.docx"));
                                        (u "size", PInt 5);
                                        (u "modified",
                                         PStr (u "20240101_000000"))]])],
                    MemEnv.one_note_world))
    by (vm_compute; reflexivity).
  split; [exact Hrun | ]. split; [reflexivity | ].
  destruct (listing_is_consistent (E := MemEnv.env) _ _ _ Hrun eq_refl)
    as (docs & _ & Hcount & _).
  reflexivity.
Defined.

(* ================================================================== *)
(** ** Keyword calls and the published schema *)

Section Calls.
Context {E : PyEnv}.

Lemma apply_kwargs_raises (kwargs : pydict) (ps : list (pystr * option pyval)) :
  forall (body : fn_type (length ps)) (w : World),
    forallb (fun p => match snd p, dict_get (fst p) kwargs with
                      | None, None => false
                      | _, _ => true
                      end) ps = false ->
    exists e,
      apply_kwargs ps body kwargs w = (Raise e, w)
      /\ exc_class e = "TypeError"%string.
Proof.
  induction ps as [| [name default] ps IH]; intros body w Hreq.
  - discriminate Hreq.
  - cbn [forallb fst snd] in Hreq. cbn [apply_kwargs].
    destruct (dict_get name kwargs) as [v |].
    + apply IH. destruct default; exact Hreq.
    + destruct default as [v |].
      * apply IH. exact Hreq.
      * eexists. split; reflexivity.
Qed.

Lemma call_raises (f : pyfunc) (kwargs : pydict) (w : World) :
  binds f kwargs = false ->
  exists e, call f kwargs w = (Raise e, w) /\ exc_class e = "TypeError"%string.
Proof.
  unfold binds, call. intros Hbinds.
  destruct (forallb _ kwargs).
  - cbn [andb] in Hbinds. apply apply_kwargs_raises. exact Hbinds.
  - eexists. split; reflexivity.
Qed.

End Calls.

(** X9. A call of a registered tool through [POST /call] whose keyword
    arguments do not fit the handler (an unknown name, or a parameter
    without default left out) raises [TypeError] out of [call_tool]; the
    handler's body, and with it its [try], is never entered, so the world
    is untouched and no result dict exists. *)
Theorem misfit_arguments_raise `{E : PyEnv}
        (request : ToolCallRequest) (handler : pyfunc) (w : World) :
  dict_get (tc_tool request) TOOL_HANDLERS = Some handler ->
  binds handler (tc_params request) = false ->
  exists e,
    call_tool request w = (Raise e, w)
    /\ exc_class e = "TypeError"%string.
Proof.
  intros Hget Hbinds.
  destruct (call_raises handler (tc_params request) w Hbinds) as (e & Hrun & He).
  exists e. split; [ | exact He].
  unfold call_tool, call_tool_in. rewrite Hget.
  apply bind_raised. exact Hrun.
Qed.

(** Witness for X9: [read_document] without its [filename]. *)
Lemma misfit_arguments_raise_witness :
  binds (E := MemEnv.env) (Def [(u "filename", None)] read_document) [] = false
  /\ exists e,
       call_tool (E := MemEnv.env)
                 {| tc_tool := u "read_document"; tc_params := [] |}
                 MemEnv.one_note_world
       = (Raise e, MemEnv.one_note_world)
       /\ exc_class e = "TypeError"%string.
Proof.
  split; [reflexivity | ].
  exact (misfit_arguments_raise (E := MemEnv.env)
           {| tc_tool := u "read_document"; tc_params := [] |}
           _ MemEnv.one_note_world eq_refl eq_refl).
Defined.

Section Schema.
Context {E : PyEnv}.

Lemma binds_follows_schema (name : pystr) (handler : pyfunc) (kwargs : pydict) :
  dict_get name TOOL_HANDLERS = Some handler ->
  binds handler kwargs = follows_schema name kwargs.
Proof.
  unfold TOOL_HANDLERS. cbn [dict_get].
  repeat match goal with
         | |- (if pystr_eqb name ?k then _ else _) = _ -> _ =>
             let Hk := fresh "Hk" in
             destruct (pystr_eqb name k) eqn:Hk;
             [apply pystr_eqb_eq in Hk | clear Hk]
         end;
    intros H; inversion H; subst; clear H.
  all: unfold binds, follows_schema; cbn [parameters]; vm_compute.
  all: repeat match goal with
              | |- context [dict_get ?k ?kw] =>
                  destruct (dict_get k kw)
              end;
       reflexivity.
Qed.

End Schema.

Lemma call_tool_registered `{E : PyEnv}
      (request : ToolCallRequest) (handler : pyfunc) (w : World) :
  dict_get (tc_tool request) TOOL_HANDLERS = Some handler ->
  call_tool request w = call handler (tc_params request) w.
Proof.
  intros Hget. unfold call_tool, call_tool_in. rewrite Hget.
  unfold bind, ret.
  destruct (call handler (tc_params request) w) as [[r | e] w']; reflexivity.
Qed.

(** X10. The schema published in [TOOLS] agrees with the handlers: for a
    registered tool, keyword arguments fit the handler exactly when they use
    only published parameter names and give every parameter published as
    required; a request that follows the schema therefore always gets an
    [OperationResult] from [call_tool]. *)
Theorem schema_following_calls_return `{E : PyEnv}
        (request : ToolCallRequest) (handler : pyfunc) (w : World) :
  dict_get (tc_tool request) TOOL_HANDLERS = Some handler ->
  binds handler (tc_params request)
  = follows_schema (tc_tool request) (tc_params request)
  /\ (follows_schema (tc_tool request) (tc_params request) = true ->
      exists result w',
        call_tool request w = (Ret result, w') /\ OperationResult result).
Proof.
  intros Hget.
  pose proof (binds_follows_schema _ _ (tc_params request) Hget) as Hsame.
  split; [exact Hsame | ].
  intros Hschema. rewrite <- Hsame in Hschema.
  rewrite (call_tool_registered request handler w Hget).
  exact (call_returns handler (tc_params request)
                      (registered_total _ _ Hget) Hschema w).
Qed.

(** Witness for X10: reading the stored note by name. *)
Lemma schema_following_calls_return_witness :
  follows_schema (u "read_document") [(u "filename", PStr (u "notes"))] = true
  /\ exists result w',
       call_tool (E := MemEnv.env)
                 {| tc_tool := u "read_document";
                    tc_params := [(u "filename", PStr (u "notes"))] |}
                 MemEnv.one_note_world
       = (Ret result, w')
       /\ OperationResult result.
Proof.
  assert (Hschema : follows_schema (u "read_document")
                                   [(u "filename", PStr (u "notes"))] = true)
    by (vm_compute; reflexivity).
  split; [exact Hschema | ].
  exact (proj2 (schema_following_calls_return (E := MemEnv.env)
                  {| tc_tool := u "read_document";
                     tc_params := [(u "filename", PStr (u "notes"))] |}
                  _ MemEnv.one_note_world eq_refl)
               Hschema).
Defined.

(** X11. The stream of [POST /sse/call] wraps the direct call: it always
    starts with [start]; for an unknown tool it adds [error] and stops
    without [done]; for a registered tool it adds [result], carrying what
    [call_tool] returns, and then [done]; and when the call raises, the
    exception leaves the generator right after [start]. *)
Theorem streamed_call_wraps_direct_call `{E : PyEnv}
        (request : ToolCallRequest) (w : World) :
  let start : event :=
    [(u "type", PStr (u "start")); (u "tool", PStr (tc_tool request))] in
  (dict_get (tc_tool request) TOOL_HANDLERS = None ->
   sse_call_tool_stream request w
   = ([start;
       [(u "type", PStr (u "error"));
        (u "error", PStr (u "未知工具: " ++ tc_tool request))]],
      Finished, w))
  /\ (forall handler,
         dict_get (tc_tool request) TOOL_HANDLERS = Some handler ->
         (forall result w',
             call_tool request w = (Ret result, w') ->
             sse_call_tool_stream request w
             = ([start;
                 [(u "type", PStr (u "result")); (u "data", PDict result)];
                 [(u "type", PStr (u "done"))]],
                Finished, w'))
         /\ (forall e w',
                call_tool request w = (Raise e, w') ->
                sse_call_tool_stream request w = ([start], Failed e, w'))).
Proof.
  intros start. unfold sse_call_tool_stream. split.
  - intros Hnone. rewrite Hnone. reflexivity.
  - intros handler Hget.
    rewrite (call_tool_registered request handler w Hget). rewrite Hget.
    split; intros r w' Hrun; rewrite Hrun; reflexivity.
Qed.

(** Witness for X11: an unknown tool, and a registered one. *)
Lemma streamed_call_wraps_direct_call_witness :
  dict_get (tc_tool unknown_call) (TOOL_HANDLERS (E := MemEnv.env)) = None
  /\ map event_type
         (fst (fst (sse_call_tool_stream (E := MemEnv.env) unknown_call
                                         MemEnv.empty_world)))
     = [Some (PStr (u "start")); Some (PStr (u "error"))].
Proof.
  split; [reflexivity | ].
  rewrite (proj1 (streamed_call_wraps_direct_call (E := MemEnv.env)
                    unknown_call MemEnv.empty_world) eq_refl).
  reflexivity.
Defined.

(* ================================================================== *)
(** ** Every stream of the orchestrator *)

Section Streams.
Context {E : PyEnv}.
Variable handlers : list (pystr * pyfunc).
Variable is_disconnected : nat -> bool.
Variable total_steps : nat.

(** However the loop is left, what it yielded is the triples of the steps
    completed so far, followed by what the exit itself yields. *)
Lemma plan_loop_frames (steps : list step) :
  forall idx w,
    exists n results,
      n <= length steps
      /\ length results = n
      /\ match plan_loop handlers is_disconnected total_steps idx steps w with
         | (events, Exhausted, _) =>
             n = length steps
             /\ events = completed_events total_steps idx (firstn n steps) results
         | (events, Broke, _) =>
             n < length steps
             /\ is_disconnected (idx + n) = true
             /\ events = completed_events total_steps idx (firstn n steps) results
         | (events, Returned, _) =>
             exists s,
               nth_error steps n = Some s
               /\ dict_get (tool s) handlers = None
               /\ events
                  = completed_events total_steps idx (firstn n steps) results
                    ++ [progress_event (idx + n) total_steps (step_label s);
                        start_event (tool s) (idx + n) (step_label s);
                        error_event (tool s) (idx + n)]
         | (events, Raised _, _) =>
             exists s,
               nth_error steps n = Some s
               /\ events
                  = completed_events total_steps idx (firstn n steps) results
                    ++ [progress_event (idx + n) total_steps (step_label s);
                        start_event (tool s) (idx + n) (step_label s)]
         end.
Proof.
  induction steps as [| s rest IH]; intros idx w.
  - exists 0, []. cbn [plan_loop length firstn completed_events].
    repeat split; reflexivity || apply le_n.
  - cbn [plan_loop]. destruct (is_disconnected idx) eqn:Hgone.
    + exists 0, []. cbn [length firstn completed_events].
      rewrite Nat.add_0_r.
      repeat split; try reflexivity; try exact Hgone; apply Nat.lt_0_succ || apply Nat.le_0_l.
    + destruct (dict_get (tool s) handlers) as [handler |] eqn:Hget.
      * destruct (call handler (params s) w) as [[result | e] w1] eqn:Hrun.
        -- destruct (IH (S idx) w1) as (n & results & Hn & Hlen & Hshape).
           exists (S n), (result :: results).
           destruct (plan_loop handlers is_disconnected total_steps (S idx) rest w1)
             as [[events how] w2].
           cbn [length firstn completed_events nth_error].
           replace (idx + S n) with (S idx + n) by lia.
           split; [lia | ]. split; [lia | ].
           destruct how.
           ++ destruct Hshape as [Hall Hev]. split; [lia | ].
              rewrite Hev. reflexivity.
           ++ destruct Hshape as (Hlt & Hd & Hev). split; [lia | ].
              split; [exact Hd | ]. rewrite Hev. reflexivity.
           ++ destruct Hshape as (s' & Hnth & Hnone & Hev).
              exists s'. split; [exact Hnth | ]. split; [exact Hnone | ].
              rewrite Hev. reflexivity.
           ++ destruct Hshape as (s' & Hnth & Hev).
              exists s'. split; [exact Hnth | ]. rewrite Hev. reflexivity.
        -- exists 0, []. cbn [length firstn completed_events nth_error app].
           rewrite Nat.add_0_r.
           split; [apply Nat.le_0_l | ]. split; [reflexivity | ].
           exists s. split; reflexivity.
      * exists 0, []. cbn [length firstn completed_events nth_error app].
        rewrite Nat.add_0_r.
        split; [apply Nat.le_0_l | ]. split; [reflexivity | ].
        exists s. split; [reflexivity | ]. split; [exact Hget | reflexivity].
Qed.

(** With the peer connected throughout, the loop makes exactly the calls of
    [call_in_order], and its [result] frames carry their results in order. *)
Lemma plan_loop_calls (steps : list step) :
  (forall idx, is_disconnected idx = false) ->
  forall idx w,
    let '(events, _, w') :=
      plan_loop handlers is_disconnected total_steps idx steps w in
    w' = snd (call_in_order handlers steps w)
    /\ map (dict_get (u "data")) (filter (has_type "result") events)
       = map (fun r => Some (PDict r)) (fst (call_in_order handlers steps w)).
Proof.
  intros Hconn. induction steps as [| s rest IH]; intros idx w.
  - cbn [plan_loop call_in_order]. split; reflexivity.
  - cbn [plan_loop call_in_order]. rewrite Hconn.
    destruct (dict_get (tool s) handlers) as [handler |].
    + destruct (call handler (params s) w) as [[result | e] w1].
      * specialize (IH (S idx) w1).
        destruct (plan_loop handlers is_disconnected total_steps (S idx) rest w1)
          as [[events how] w2].
        destruct (call_in_order handlers rest w1) as [results wc].
        cbn [fst snd] in *. destruct IH as [Hw Hdata].
        split; [exact Hw | ].
        cbn [filter].
        rewrite has_type_progress, has_type_start, has_type_result.
        change (pystr_eqb (u "progress") (u "result")) with false.
        change (pystr_eqb (u "start") (u "result")) with false.
        change (pystr_eqb (u "result") (u "result")) with true.
        cbn [map]. rewrite Hdata. reflexivity.
      * split; reflexivity.
    + split; reflexivity.
Qed.


End Streams.

(** X12. Whatever the registry, the plan, the peer and the world, the frames
    of the plan executor are the triples of the first [n] steps followed by
    exactly one of three endings: [done] (all steps completed, or a
    disconnection seen before step [n+1]); [progress], [start], [error] for
    a step [n+1] that names no registered operation; or [progress], [start]
    and an exception leaving the generator when the call of step [n+1]
    raises. *)
Theorem every_stream_has_one_shape `{E : PyEnv}
        (handlers : list (pystr * pyfunc)) (plan : list step)
        (title filename : pystr) (is_disconnected : nat -> bool) (w : World) :
  exists n results,
    n <= length plan
    /\ length results = n
    /\ let triples :=
         completed_events (length plan) 1 (firstn n plan) results in
       let '(events, how, _) :=
         run_plan handlers plan title filename is_disconnected w in
       (events = triples ++ [done_event filename title]
        /\ how = Finished
        /\ (n = length plan \/ is_disconnected (S n) = true))
       \/ (exists s,
              nth_error plan n = Some s
              /\ dict_get (tool s) handlers = None
              /\ events
                 = triples
                   ++ [progress_event (S n) (length plan) (step_label s);
                       start_event (tool s) (S n) (step_label s);
                       error_event (tool s) (S n)]
              /\ how = Finished)
       \/ (exists s e,
              nth_error plan n = Some s
              /\ events
                 = triples
                   ++ [progress_event (S n) (length plan) (step_label s);
                       start_event (tool s) (S n) (step_label s)]
              /\ how = Failed e).
Proof.
  destruct (plan_loop_frames handlers is_disconnected (length plan) plan 1 w)
    as (n & results & Hn & Hlen & Hshape).
  exists n, results. split; [exact Hn | ]. split; [exact Hlen | ].
  unfold run_plan. cbv zeta.
  destruct (plan_loop handlers is_disconnected (length plan) 1 plan w)
    as [[events how] w'].
  change (1 + n) with (S n) in Hshape.
  destruct how.
  - destruct Hshape as [Hall Hev]. left. rewrite Hev.
    split; [reflexivity | ]. split; [reflexivity | left; exact Hall].
  - destruct Hshape as (_ & Hgone & Hev). left. rewrite Hev.
    split; [reflexivity | ]. split; [reflexivity | right; exact Hgone].
  - destruct Hshape as (s & Hnth & Hnone & Hev). right. left.
    exists s. repeat split; assumption.
  - destruct Hshape as (s & Hnth & Hev). right. right.
    exists s, e. repeat split; assumption.
Qed.



(** X14. With the peer connected throughout, the plan executor calls each
    step's handler exactly once, in plan order, each on the world the
    previous call left, and stops calling at the first step that is not
    registered or raises: the world it leaves and the results in its
    [result] frames are those of [call_in_order]. *)
Theorem operations_run_once_in_order `{E : PyEnv}
        (handlers : list (pystr * pyfunc)) (plan : list step)
        (title filename : pystr) (is_disconnected : nat -> bool) (w : World) :
  (forall idx, is_disconnected idx = false) ->
  let '(events, _, w') :=
    run_plan handlers plan title filename is_disconnected w in
  w' = snd (call_in_order handlers plan w)
  /\ map (dict_get (u "data")) (filter (has_type "result") events)
     = map (fun r => Some (PDict r)) (fst (call_in_order handlers plan w)).
Proof.
  intros Hconn.
  pose proof (plan_loop_calls handlers is_disconnected (length plan) plan
                              Hconn 1 w) as Hloop.
  unfold run_plan.
  destruct (plan_loop handlers is_disconnected (length plan) 1 plan w)
    as [[events how] w'].
  destruct Hloop as [Hw Hdata].
  destruct how; (split; [exact Hw | ]); try exact Hdata;
    rewrite filter_app; cbn [filter];
    change (has_type "result" (done_event filename title)) with false;
    cbv iota; rewrite app_nil_r; exact Hdata.
Qed.

(** Witness for X14: the built plan on an empty store leaves one file. *)
Lemma operations_run_once_in_order_witness :
  (forall idx, never_gone idx = false)
  /\ snd (run_plan (E := MemEnv.env) TOOL_HANDLERS
                   (_react_doc_plan (u "React") (u "React_1"))
                   (u "React") (u "React_1") never_gone MemEnv.empty_world)
     = snd (call_in_order (E := MemEnv.env) TOOL_HANDLERS
                          (_react_doc_plan (u "React") (u "React_1"))
                          MemEnv.empty_world).
Proof.
  split; [reflexivity | ].
  pose proof (operations_run_once_in_order (E := MemEnv.env) TOOL_HANDLERS
                (_react_doc_plan (u "React") (u "React_1"))
                (u "React") (u "React_1") never_gone MemEnv.empty_world
                (fun _ => eq_refl)) as H.
  destruct (run_plan (E := MemEnv.env) TOOL_HANDLERS
                     (_react_doc_plan (u "React") (u "React_1"))
                     (u "React") (u "React_1") never_gone MemEnv.empty_world)
    as [[events how] w'].
  exact (proj1 H).
Defined.

(** X15. Every step of a built plan carries, as its [filename] parameter,
    the document identifier the plan was built for: the fifteen later steps
    address the document that the first step creates. *)
Theorem every_step_targets_the_document (title filename : pystr) :
  Forall (fun s => dict_get (u "filename") (params s) = Some (PStr filename))
         (_react_doc_plan title filename)
  /\ option_map tool (hd_error (_react_doc_plan title filename))
     = Some (u "create_document").
Proof.
  split; [ | reflexivity ].
  rewrite plan_phases.
  apply Forall_cons; [reflexivity | ]. apply Forall_app. split.
  - apply Forall_flat_map, Forall_forall. intros [heading body] _.
    cbn [section_steps]. repeat apply Forall_cons; try apply Forall_nil;
      reflexivity.
  - apply Forall_cons; [reflexivity | apply Forall_nil].
Qed.



(* ================================================================== *)
(** ** More on names and identifiers *)

Section Strings.

Lemma lstrip_visible (s : pystr) :
  Forall (fun c => isspace c = false) s -> lstrip s = s.
Proof.
  intros H. destruct H as [| c s Hc Hs]; [reflexivity | ].
  cbn [lstrip]. rewrite Hc. reflexivity.
Qed.

Lemma lstrip_blank (s : pystr) :
  Forall (fun c => isspace c = true) s -> lstrip s = [].
Proof.
  induction 1 as [| c s Hc Hs IH]; [reflexivity | ].
  cbn [lstrip]. rewrite Hc. exact IH.
Qed.

Lemma strip_visible (s : pystr) :
  Forall (fun c => isspace c = false) s -> strip s = s.
Proof.
  intros H. unfold strip. rewrite (lstrip_visible s H).
  rewrite (lstrip_visible (rev s)) by (apply Forall_rev; exact H).
  apply rev_involutive.
Qed.

Lemma strip_blank (s : pystr) :
  Forall (fun c => isspace c = true) s -> strip s = [].
Proof.
  intros H. unfold strip. rewrite (lstrip_blank s H). reflexivity.
Qed.

Lemma sub_whitespace_runs_visible (s : pystr) :
  Forall (fun c => isspace c = false) s ->
  forall in_run, sub_whitespace_runs in_run s = s.
Proof.
  induction 1 as [| c s Hc Hs IH]; intros in_run; [reflexivity | ].
  cbn [sub_whitespace_runs]. rewrite Hc, IH. reflexivity.
Qed.

Lemma filter_all {A} (f : A -> bool) (l : list A) :
  Forall (fun x => f x = true) l -> filter f l = l.
Proof.
  induction 1 as [| x l Hx Hl IH]; [reflexivity | ].
  cbn [filter]. rewrite Hx, IH. reflexivity.
Qed.

(** The left strip drops a blank prefix and nothing else. *)
Lemma lstrip_suffix (s : pystr) :
  exists blank,
    s = blank ++ lstrip s /\ Forall (fun c => isspace c = true) blank.
Proof.
  induction s as [| c s IH].
  - exists []. split; [reflexivity | apply Forall_nil].
  - cbn [lstrip]. destruct (isspace c) eqn:Hc.
    + destruct IH as (blank & Heq & Hblank).
      exists (c :: blank). split.
      * cbn [app]. rewrite <- Heq. reflexivity.
      * apply Forall_cons; assumption.
    + exists []. split; [reflexivity | apply Forall_nil].
Qed.

Lemma lstrip_head (s : pystr) :
  match lstrip s with
  | [] => True
  | c :: _ => isspace c = false
  end.
Proof.
  induction s as [| c s IH]; [exact I | ].
  cbn [lstrip]. destruct (isspace c) eqn:Hc; [exact IH | exact Hc].
Qed.

Lemma lstrip_fixed (s : pystr) :
  match s with
  | [] => True
  | c :: _ => isspace c = false
  end ->
  lstrip s = s.
Proof.
  destruct s as [| c s]; [reflexivity | ].
  intros Hc. cbn [lstrip]. rewrite Hc. reflexivity.
Qed.

(** Dropping blanks at the right end exposes no blank at the left end. *)
Lemma rstrip_keeps_head (t : pystr) :
  lstrip t = t -> lstrip (rev (lstrip (rev t))) = rev (lstrip (rev t)).
Proof.
  intros Ht.
  destruct (lstrip_suffix (rev t)) as (blank & Heq & _).
  apply (f_equal (@rev N)) in Heq.
  rewrite rev_involutive, rev_app_distr in Heq.
  apply lstrip_fixed.
  destruct (rev (lstrip (rev t))) as [| c r]; [exact I | ].
  pose proof (lstrip_head t) as Hhead. rewrite Ht in Hhead.
  rewrite Heq in Hhead. exact Hhead.
Qed.

Lemma strip_strip (s : pystr) : strip (strip s) = strip s.
Proof.
  assert (Ht : lstrip (lstrip s) = lstrip s)
    by (apply lstrip_fixed, lstrip_head).
  unfold strip at 2.
  set (r := rev (lstrip (rev (lstrip s)))).
  assert (Hleft : lstrip r = r) by (apply rstrip_keeps_head; exact Ht).
  assert (Hright : lstrip (rev r) = rev r).
  { unfold r. rewrite rev_involutive. apply lstrip_fixed, lstrip_head. }
  unfold strip. rewrite Hleft, Hright. apply rev_involutive.
Qed.

End Strings.

(** X17. Sanitizing is idempotent: a sanitized name is left unchanged by
    sanitizing it again. *)
Theorem sanitizing_twice_changes_nothing `{E : PyEnv} (name : pystr) :
  _sanitize_filename (_sanitize_filename name) = _sanitize_filename name.
Proof.
  set (base := _sanitize_filename name).
  assert (Hvisible : Forall (fun c => isspace c = false) base).
  { unfold base. rewrite sanitize_cases.
    apply Forall_firstn, Forall_filter, sub_whitespace_runs_no_space. }
  assert (Hkept : Forall (fun c => kept_char c = true) base).
  { unfold base. rewrite sanitize_cases.
    apply Forall_firstn, Forall_filter_true. }
  rewrite (sanitize_cases base).
  rewrite (strip_visible base Hvisible).
  rewrite (sub_whitespace_runs_visible base Hvisible).
  rewrite (filter_all kept_char base Hkept).
  apply firstn_all2. apply length_sanitize.
Qed.

(** X18. A file name made of whitespace only is not replaced by the title:
    being a non-empty string it is the one sanitized, it sanitizes to the
    empty string, and the base becomes ["doc_"] and the seconds reading. *)
Theorem blank_filename_gets_the_time_base `{E : PyEnv}
        (request : AgentRequest) (title : pystr) (now_s : Z)
        (c : N) (blank : pystr) :
  req_filename request = Some (c :: blank) ->
  Forall (fun x => isspace x = true) (c :: blank) ->
  resolve_base_name request title now_s = u "doc_" ++ str_int now_s.
Proof.
  intros Hname Hblank. unfold resolve_base_name. rewrite Hname.
  cbn [nonempty]. rewrite sanitize_cases, (strip_blank _ Hblank).
  reflexivity.
Qed.

(** Witness for X18: the file name is two spaces, the title is "React". *)
Lemma blank_filename_gets_the_time_base_witness :
  Forall (fun x => isspace x = true) (u "  ")
  /\ resolve_base_name (E := MemEnv.env)
                       {| req_query := u "q"; req_title := Some (u "React");
                          req_filename := Some (u "  ") |}
                       (u "React") 1730000000
     = u "doc_" ++ str_int 1730000000.
Proof.
  assert (Hblank : Forall (fun x => isspace x = true) (u "  "))
    by (repeat constructor).
  split; [exact Hblank | ].
  exact (blank_filename_gets_the_time_base (E := MemEnv.env)
           {| req_query := u "q"; req_title := Some (u "React");
              req_filename := Some (u "  ") |}
           (u "React") 1730000000%Z _ _ eq_refl Hblank).
Defined.

(** X19. The title of a plan is never empty and carries no whitespace at
    either end, whatever the request holds. *)
Theorem title_is_never_blank (request : AgentRequest) :
  resolve_title request <> []
  /\ strip (resolve_title request) = resolve_title request.
Proof.
  unfold resolve_title.
  set (given := strip match req_title request with
                      | Some t => if nonempty t then t else u ""
                      | None => u ""
                      end).
  assert (Hgiven : strip given = given) by apply strip_strip.
  destruct given as [| c given'] eqn:Hg; cbn [nonempty negb].
  - pose proof (strip_strip (req_query request)) as Hquery.
    destruct (strip (req_query request)) as [| q query'].
    + cbn [nonempty]. split; [discriminate | reflexivity].
    + cbn [nonempty]. split; [discriminate | exact Hquery].
  - split; [discriminate | exact Hgiven].
Qed.

Section Decimals.

Lemma utf8_decode_ascii (bs : list N) :
  Forall (fun b => (b <? 128)%N = true) bs -> utf8_decode bs = bs.
Proof.
  induction 1 as [| b bs Hb Hbs IH]; [reflexivity | ].
  cbn [utf8_decode]. rewrite Hb, IH. reflexivity.
Qed.

(** The characters of a printed natural number are decimal digits. *)
Lemma uint_digits (d : Decimal.uint) :
  Forall (fun a => (48 <= N_of_ascii a <= 57)%N)
         (list_ascii_of_string (DecimalString.NilEmpty.string_of_uint d)).
Proof.
  induction d;
    cbn [DecimalString.NilEmpty.string_of_uint list_ascii_of_string];
    try apply Forall_nil;
    (apply Forall_cons; [vm_compute; split; discriminate | assumption]).
Qed.

(** The characters of a printed integer are digits and the minus sign. *)
Lemma int_chars (d : Decimal.signed_int) :
  Forall (fun a => (45 <= N_of_ascii a <= 57)%N)
         (list_ascii_of_string (DecimalString.NilZero.string_of_int d)).
Proof.
  assert (Huint : forall v,
             Forall (fun a => (45 <= N_of_ascii a <= 57)%N)
                    (list_ascii_of_string
                       (DecimalString.NilZero.string_of_uint v))).
  { intros v. destruct v;
      try (eapply Forall_impl; [ | apply uint_digits ];
           cbv beta; intros a Ha; lia).
    apply Forall_cons; [vm_compute; split; discriminate | apply Forall_nil]. }
  destruct d as [v | v]; cbn [DecimalString.NilZero.string_of_int].
  - apply Huint.
  - cbn [list_ascii_of_string].
    apply Forall_cons; [vm_compute; split; discriminate | apply Huint].
Qed.

Lemma str_int_chars (z : Z) :
  str_int z
  = map N_of_ascii
        (list_ascii_of_string
           (DecimalString.NilZero.string_of_int (Z.to_int z)))
  /\ Forall (fun c => c <> 95%N) (str_int z).
Proof.
  assert (Heq : str_int z
                = map N_of_ascii
                      (list_ascii_of_string
                         (DecimalString.NilZero.string_of_int (Z.to_int z)))).
  { unfold str_int, u. apply utf8_decode_ascii.
    apply Forall_map.
    eapply Forall_impl; [ | apply int_chars ].
    cbv beta. intros a Ha. apply N.ltb_lt. lia. }
  split; [exact Heq | ].
  rewrite Heq. apply Forall_map.
  eapply Forall_impl; [ | apply int_chars ].
  cbv beta. intros a Ha. lia.
Qed.

(** Printing an integer loses nothing. *)
Lemma str_int_injective (z1 z2 : Z) : str_int z1 = str_int z2 -> z1 = z2.
Proof.
  intros H.
  rewrite (proj1 (str_int_chars z1)), (proj1 (str_int_chars z2)) in H.
  apply (f_equal (map ascii_of_N)) in H.
  rewrite !map_map in H.
  rewrite !(map_ext _ (fun a => a) ascii_N_embedding), !map_id in H.
  apply (f_equal string_of_list_ascii) in H.
  rewrite !string_of_list_ascii_of_string in H.
  assert (Hparse : forall z,
             DecimalString.NilZero.int_of_string
               (DecimalString.NilZero.string_of_int (Z.to_int z))
             = Some (Z.to_int z)).
  { intros z. apply DecimalString.NilZero.isi;
      destruct z; cbn [Z.to_int]; intros Hnil; inversion Hnil as [Hp];
        exact (DecimalPos.Unsigned.to_uint_nonnil _ Hp). }
  apply DecimalZ.to_int_inj.
  pose proof (Hparse z1) as H1. rewrite H, (Hparse z2) in H1.
  inversion H1. reflexivity.
Qed.

(** Two strings cut at their first underscore agree part by part. *)
Lemma cut_at_underscore (a c b d : pystr) :
  Forall (fun x => x <> 95%N) a ->
  Forall (fun x => x <> 95%N) c ->
  a ++ 95%N :: b = c ++ 95%N :: d ->
  a = c /\ b = d.
Proof.
  intros Ha. revert c. induction Ha as [| x a Hx Ha IH]; intros c Hc Heq.
  - destruct Hc as [| y c Hy Hc]; cbn [app] in Heq.
    + injection Heq as Hbd. split; [reflexivity | exact Hbd].
    + injection Heq as Hxy _. contradiction Hy. symmetry. exact Hxy.
  - destruct Hc as [| y c Hy Hc]; cbn [app] in Heq.
    + injection Heq as Hxy _. contradiction Hx.
    + injection Heq as Hxy Hrest.
      destruct (IH c Hc Hrest) as [Hac Hbd]. subst. split; reflexivity.
Qed.

End Decimals.

(** X20. Requests with the same title and file name that read different
    values of the millisecond clock get different document identifiers,
    whatever their seconds readings are. *)
Theorem distinct_instants_give_distinct_identifiers `{E : PyEnv}
        (request : AgentRequest) (title : pystr) (s1 ms1 s2 ms2 : Z) :
  ms1 <> ms2 ->
  resolve_filename request title s1 ms1 <> resolve_filename request title s2 ms2.
Proof.
  intros Hms Heq. apply Hms. apply str_int_injective.
  unfold resolve_filename, resolve_base_name in Heq.
  change (u "_") with [95%N] in Heq. cbn [app] in Heq.
  destruct (negb _ || _).
  - rewrite <- !app_assoc in Heq. apply app_inv_head in Heq.
    exact (proj2 (cut_at_underscore _ _ _ _
                    (proj2 (str_int_chars s1)) (proj2 (str_int_chars s2)) Heq)).
  - apply app_inv_head in Heq. inversion Heq. reflexivity.
Qed.

(** Witness for X20: two requests one millisecond apart. *)
Lemma distinct_instants_give_distinct_identifiers_witness :
  1730000000123%Z <> 1730000000124%Z
  /\ resolve_filename (E := MemEnv.env) sample_request (u "React 入门")
                      1730000000 1730000000123
     <> resolve_filename (E := MemEnv.env) sample_request (u "React 入门")
                         1730000000 1730000000124.
Proof.
  assert (Hms : 1730000000123%Z <> 1730000000124%Z) by discriminate.
  split; [exact Hms | ].
  exact (distinct_instants_give_distinct_identifiers (E := MemEnv.env)
           sample_request (u "React 入门") 1730000000 1730000000123
           1730000000 1730000000124 Hms).
Defined.

(* ================================================================== *)
(** ** More on the agent stream and on paths *)

Lemma length_completed_events (total : nat) (steps : list step) :
  forall idx results,
    length results = length steps ->
    length (completed_events total idx steps results) = 3 * length steps.
Proof.
  induction steps as [| s steps IH]; intros idx [| r results] Hlen;
    try discriminate Hlen; [reflexivity | ].
  cbn [completed_events length]. cbn [length] in Hlen.
  rewrite (IH (S idx) results) by lia. lia.
Qed.

(** X21. The stream of [/sse/agent] starts with the [start] frame of the
    agent and then holds, for some [n <= 16], the [3n] frames of [n]
    completed steps and one closing frame: [3n + 2] frames, at most 50, and
    exactly 50 when the peer stays connected. *)
Theorem agent_stream_length `{E : PyEnv}
        (request : AgentRequest) (now_s now_ms : Z)
        (is_disconnected : nat -> bool) (w : World) :
  let '(events, _, _) :=
    stream_response request now_s now_ms is_disconnected w in
  hd_error events = Some agent_start_event
  /\ length events <= 50
  /\ (exists n, n <= 16 /\ length events = 3 * n + 2)
  /\ ((forall idx, is_disconnected idx = false) -> length events = 50).
Proof.
  unfold stream_response, run_plan.
  set (title := resolve_title request).
  set (filename := resolve_filename request title now_s now_ms).
  pose proof (length_plan title filename) as Hlen16.
  pose proof (plan_steps_return title filename) as Hok.
  pose proof (plan_loop_registered TOOL_HANDLERS is_disconnected
                (length (_react_doc_plan title filename))
                (_react_doc_plan title filename) 1 w Hok) as Hreg.
  destruct (plan_loop_frames TOOL_HANDLERS is_disconnected
              (length (_react_doc_plan title filename))
              (_react_doc_plan title filename) 1 w)
    as (n & results & Hn & Hlen & Hshape).
  destruct (plan_loop TOOL_HANDLERS is_disconnected
                      (length (_react_doc_plan title filename)) 1
                      (_react_doc_plan title filename) w)
    as [[events how] w'].
  rewrite Hlen16 in Hn.
  assert (Hfirst : length results
                   = length (firstn n (_react_doc_plan title filename)))
    by (rewrite length_firstn, Hlen16; lia).
  assert (Hevents : events
                    = completed_events
                        (length (_react_doc_plan title filename)) 1
                        (firstn n (_react_doc_plan title filename)) results
                    /\ (n = 16 \/ is_disconnected (1 + n) = true)
                    /\ (how = Exhausted \/ how = Broke)).
  { destruct Hreg as [_ [Hhow | Hhow]]; subst how.
    - destruct Hshape as [Hall Hev]. rewrite Hlen16 in Hall.
      split; [exact Hev | ]. split; [left; exact Hall | left; reflexivity].
    - destruct Hshape as (_ & Hgone & Hev).
      split; [exact Hev | ]. split; [right; exact Hgone | right; reflexivity]. }
  destruct Hevents as (Hev & Hend & Hhow).
  assert (Hcount : length events = 3 * n).
  { rewrite Hev, length_completed_events by exact Hfirst.
    rewrite length_firstn, Hlen16. lia. }
  assert (Hall : length (agent_start_event
                           :: events ++ [done_event filename title])
                 = 3 * n + 2).
  { cbn [length]. rewrite length_app. cbn [length]. lia. }
  destruct Hhow; subst how;
    (split; [reflexivity | ]); (split; [lia | ]);
    (split; [exists n; split; [exact Hn | exact Hall] | ]);
    intros Hconn; rewrite Hall;
    (destruct Hend as [H16 | Hgone];
     [lia | rewrite Hconn in Hgone; discriminate Hgone]).
Qed.

(** Witness for X21: a peer that never leaves. *)
Lemma agent_stream_length_witness :
  (forall idx, never_gone idx = false)
  /\ length (fst (fst (stream_response (E := MemEnv.env) sample_request
                                       1730000000 1730000000123 never_gone
                                       MemEnv.empty_world))) = 50.
Proof.
  split; [reflexivity | ].
  pose proof (agent_stream_length (E := MemEnv.env) sample_request
                1730000000 1730000000123 never_gone MemEnv.empty_world) as H.
  destruct (stream_response (E := MemEnv.env) sample_request
                            1730000000 1730000000123 never_gone
                            MemEnv.empty_world) as [[events how] w'].
  destruct H as (_ & _ & _ & Hfull).
  exact (Hfull (fun _ => eq_refl)).
Defined.

(** X22. Every step of a built plan has a non-empty label, so the progress
    and start frames always show the label and never fall back on the tool
    name. *)
Theorem built_steps_are_labelled (title filename : pystr) :
  Forall (fun s => exists l, label s = Some l /\ l <> [] /\ step_label s = l)
         (_react_doc_plan title filename).
Proof.
  rewrite plan_phases.
  apply Forall_cons; [ | apply Forall_app; split ].
  - eexists. split; [reflexivity | ]. split; [discriminate | reflexivity].
  - apply Forall_flat_map, Forall_forall. intros [heading body] _.
    cbn [section_steps].
    repeat apply Forall_cons; try apply Forall_nil;
      (eexists; split; [reflexivity | ];
       split; [discriminate | reflexivity]).
  - apply Forall_cons; [ | apply Forall_nil ].
    eexists. split; [reflexivity | ]. split; [discriminate | reflexivity].
Qed.

Lemma endswith_suffix (s suffix : pystr) : endswith (s ++ suffix) suffix = true.
Proof.
  unfold endswith. rewrite rev_app_distr.
  induction (rev suffix) as [| c r IH].
  - destruct (rev s); reflexivity.
  - cbn [app startswith]. rewrite N.eqb_refl. exact IH.
Qed.

(** X23. When building a path from a string that ends in [.docx] gives a
    path whose string form still ends in [.docx], the path that
    [get_file_path] returns for any string file name ends in [.docx]; the
    function neither raises nor touches the world. *)
Theorem file_paths_end_in_docx `{E : PyEnv} (s : pystr) (w : World) :
  (forall t, endswith t (u ".docx") = true ->
             endswith (path_str (path_of_str t)) (u ".docx") = true) ->
  exists p,
    get_file_path (PStr s) w = (Ret p, w)
    /\ endswith (path_str p) (u ".docx") = true.
Proof.
  intros Hkeeps. exists (resolved_path s).
  split; [apply get_file_path_str | ].
  unfold resolved_path. cbv zeta.
  match goal with
  | |- context [if endswith ?a ?b then _ else _] =>
      destruct (endswith a b) eqn:Hends
  end.
  - exact Hends.
  - apply Hkeeps. apply endswith_suffix.
Qed.

(** Witness for X23: the name "notes" in the sample environment. *)
Lemma file_paths_end_in_docx_witness :
  (forall t, endswith t (u ".docx") = true ->
             endswith (@path_str MemEnv.env (@path_of_str MemEnv.env t))
                      (u ".docx") = true)
  /\ exists p,
       get_file_path (E := MemEnv.env) (PStr (u "notes")) MemEnv.empty_world
       = (Ret p, MemEnv.empty_world)
       /\ endswith (@path_str MemEnv.env p) (u ".docx") = true.
Proof.
  assert (Hkeeps : forall t,
             endswith t (u ".docx") = true ->
             endswith (@path_str MemEnv.env (@path_of_str MemEnv.env t))
                      (u ".docx") = true)
    by (intros t Ht; exact Ht).
  split; [exact Hkeeps | ].
  exact (file_paths_end_in_docx (E := MemEnv.env) (u "notes")
                                MemEnv.empty_world Hkeeps).
Defined.

Lemma post_for_fold {W A S} (body : S -> A -> M W S) (I : S -> Prop)
      (xs : list A) :
  (forall acc x, I acc -> post (body acc x) I) ->
  forall init, I init -> post (for_fold xs init body) I.
Proof.
  intros Hbody. induction xs as [| x xs IH]; intros init Hinit;
    cbn [for_fold].
  - apply post_ret. exact Hinit.
  - apply (post_bind_with _ _ I); [apply Hbody; exact Hinit | ].
    intros acc Hacc. apply IH. exact Hacc.
Qed.

(** X24. A successful result of [search_replace] carries a [count] that is
    never negative, and its message quotes that same count. *)
Theorem replacement_count_is_quoted `{E : PyEnv}
        (filename search_text replace_text : pyval) (w w' : World)
        (d : pydict) :
  search_replace filename search_text replace_text w = (Ret d, w') ->
  dict_get (u "success") d = Some (PBool true) ->
  exists count : Z,
    (0 <= count)%Z
    /\ dict_get (u "count") d = Some (PInt count)
    /\ dict_get (u "message") d
       = Some (PStr (u "替换了 " ++ str_int count ++ u " 处")).
Proof.
  revert w d w'.
  change (post (search_replace filename search_text replace_text)
               (fun d =>
                  dict_get (u "success") d = Some (PBool true) ->
                  exists count : Z,
                    (0 <= count)%Z
                    /\ dict_get (u "count") d = Some (PInt count)
                    /\ dict_get (u "message") d
                       = Some (PStr (u "替换了 " ++ str_int count ++ u " 处")))).
  unfold search_replace. apply post_try_except.
  - apply post_bind. intros file_path. apply post_bind. intros found.
    destruct (negb found).
    + apply post_ret. intros Hfail. discriminate Hfail.
    + apply post_bind. intros doc. apply post_bind. intros ps.
      apply (post_bind_with _ _ (fun c : Z => (0 <= c)%Z)).
      * apply post_for_fold; [ | apply Z.le_refl ].
        intros acc para Hacc. apply post_bind. intros rs.
        apply post_for_fold; [ | exact Hacc ].
        intros acc' r Hacc'. apply post_bind. intros text.
        apply post_bind. intros hit. destruct hit.
        -- post_body. lia.
        -- apply post_ret. exact Hacc'.
      * intros count Hcount. apply post_bind. intros _.
        apply post_ret. intros _. exists count.
        split; [exact Hcount | split; reflexivity].
  - intros e. unfold report. apply post_ret. intros Hfail. discriminate Hfail.
Qed.

(** Witness for X24: replacing in the stored note. *)
Lemma replacement_count_is_quoted_witness :
  exists d w',
    search_replace (E := MemEnv.env) (PStr (u "notes")) (PStr (u "l"))
                   (PStr (u "L")) MemEnv.one_note_world
    = (Ret d, w')
    /\ dict_get (u "success") d = Some (PBool true)
    /\ exists count : Z,
         (0 <= count)%Z /\ dict_get (u "count") d = Some (PInt count).
Proof.
  destruct (search_replace (E := MemEnv.env) (PStr (u "notes")) (PStr (u "l"))
                           (PStr (u "L")) MemEnv.one_note_world)
    as [[d | e] w'] eqn:Hrun; [ | vm_compute in Hrun; discriminate Hrun ].
  assert (Hok : dict_get (u "success") d = Some (PBool true)).
  { vm_compute in Hrun. inversion Hrun. reflexivity. }
  exists d, w'. split; [reflexivity | ]. split; [exact Hok | ].
  destruct (replacement_count_is_quoted (E := MemEnv.env) _ _ _ _ _ _ Hrun Hok)
    as (count & Hcount & Hget & _).
  exists count. split; assumption.
Defined.
